(** * CrossBench scoring and ranking engine ([src/scraper.cpp])

    A shallow embedding of the entity model ([ModelEntity]), the knowledge
    base ([KnowledgeBase::Enrich]), the comparators of the export paths and
    the ingestion loop of [IntelligenceEngine::Run], followed by the
    properties of the specification that concern them.

    Numeric model.  A C++ [double] is read as a real number: arithmetic is
    exact, there is no rounding, no infinity and no NaN.  [int] is [Z] and
    [size_t] is [nat].  Comparisons of doubles are the decidable comparisons
    of [R] turned into booleans.  Console logging is left out: it changes no
    field of any object.

    The signal arithmetic ([AddSignal] and the aggregate of
    [ComputeAggregates]) is embedded a second time over binary64
    ([Binary64]), where it computes: the places where rounding, underflow or
    overflow make a double differ from the real number are stated there. *)

From Stdlib Require Import Reals Lra Lia List String Ascii ZArith Bool.
From Stdlib Require Import Permutation.
From Stdlib Require Floats.
Import ListNotations.

Open Scope R_scope.

(** ** Comparisons and [<cmath>] / [<algorithm>] / [<numeric>] helpers *)

Definition Rleb (x y : R) : bool := if Rle_dec x y then true else false.
Definition Rltb (x y : R) : bool := if Rlt_dec x y then true else false.

Module Std.

(** [std::clamp(v, lo, hi)]: [(v < lo) ? lo : (hi < v) ? hi : v]. *)
Definition clamp (v lo hi : R) : R :=
  if Rltb v lo then lo else if Rltb hi v then hi else v.

(** [std::min(a, b)]: [(b < a) ? b : a]. *)
Definition min (a b : R) : R := if Rltb b a then b else a.

Definition abs (x : R) : R := Rabs x.

Definition sqrt (x : R) : R := R_sqrt.sqrt x.

Definition log10 (x : R) : R := ln x / ln 10.

(** [std::inner_product(first1, last1, first2, init, op1, op2)]. *)
Definition inner_product (l1 l2 : list R) (init : R)
    (op1 op2 : R -> R -> R) : R :=
  fold_left (fun acc xy => op1 acc (op2 (fst xy) (snd xy)))
            (combine l1 l2) init.

End Std.

(** ** Configuration *)

Module Config.
Definition MAX_RETRIES : Z := 3.
Module Weights.
Definition OVERALL_CORE : R := 0.40.
Definition OVERALL_CODING : R := 0.20.
Definition OVERALL_CREATIVE : R := 0.15.
Definition OVERALL_CONFIDENCE : R := 0.15.
Definition OVERALL_PRICE : R := 0.10.

Definition CONFIDENCE_BASE : R := 50.0.
Definition CONFIDENCE_SIGNAL_BONUS : R := 10.0.
Definition CONFIDENCE_RECENCY_BONUS : R := 5.0.
Definition CONFIDENCE_VERSATILE_BONUS : R := 10.0.
Definition CONFIDENCE_VARIANCE_PENALTY : R := 50.0.

Definition TIE_THRESHOLD : R := 0.005.
End Weights.
End Config.

(** ** Domain entities *)

Inductive Modality : Set := Text | Image | Video.

(** [std::set<Modality>] over the closed enumeration: one membership flag
    per enumerator. *)
Record ModalitySet : Set := {
  has_text : bool;
  has_image : bool;
  has_video : bool
}.

Module ModSet.
Definition empty : ModalitySet :=
  {| has_text := false; has_image := false; has_video := false |}.

Definition count (s : ModalitySet) (x : Modality) : nat :=
  match x with
  | Text => if has_text s then 1 else 0
  | Image => if has_image s then 1 else 0
  | Video => if has_video s then 1 else 0
  end%nat.

Definition insert (x : Modality) (s : ModalitySet) : ModalitySet :=
  match x with
  | Text => {| has_text := true; has_image := has_image s;
               has_video := has_video s |}
  | Image => {| has_text := has_text s; has_image := true;
                has_video := has_video s |}
  | Video => {| has_text := has_text s; has_image := has_image s;
                has_video := true |}
  end.

Definition size (s : ModalitySet) : nat :=
  (count s Text + count s Image + count s Video)%nat.
End ModSet.

Record PerformanceMetrics : Type := {
  reasoning_score : R;
  coding_score : R;
  creative_score : R;
  context_window : R;
  price_input_1m : R;
  tokens_per_sec : R;
  is_open_source : bool;
  is_enterprise_ready : bool;
  last_updated_days_ago : Z;
  org_maturity : R;
  uptime_sla : R;
  recency_bonus : Z
}.

Definition default_metrics : PerformanceMetrics := {|
  reasoning_score := 0.0; coding_score := 0.0; creative_score := 0.0;
  context_window := 0.0; price_input_1m := 0.0; tokens_per_sec := 0.0;
  is_open_source := false; is_enterprise_ready := false;
  last_updated_days_ago := 0; org_maturity := 0.0; uptime_sla := 0.0;
  recency_bonus := 0
|}.

Record RankScores : Type := {
  overall : R;
  value : R;
  coding : R;
  image : R;
  video : R;
  speed : R;
  confidence : R;
  enterprise : R
}.

Definition default_ranks : RankScores := {|
  overall := 0.0; value := 0.0; coding := 0.0; image := 0.0; video := 0.0;
  speed := 0.0; confidence := 0.0; enterprise := 0.0
|}.

Record Signal : Type := {
  source : string;
  score : R;
  weight : R
}.

Record ModelEntity : Type := {
  name : string;
  organization : string;
  modalities : ModalitySet;
  metrics : PerformanceMetrics;
  ranks : RankScores;
  signals : list Signal;
  final_score : R;
  confidence_score : R;
  confidence_reason : string
}.

(** The constructor [ModelEntity(n, o)] with the member initialisers. *)
Definition new_ModelEntity (n o : string) : ModelEntity := {|
  name := n; organization := o; modalities := ModSet.empty;
  metrics := default_metrics; ranks := default_ranks; signals := [];
  final_score := 0.0; confidence_score := 0.0; confidence_reason := ""
|}.

(** Field assignments. *)

Definition set_modalities (m : ModelEntity) (x : ModalitySet) : ModelEntity :=
  {| name := name m; organization := organization m; modalities := x;
     metrics := metrics m; ranks := ranks m; signals := signals m;
     final_score := final_score m; confidence_score := confidence_score m;
     confidence_reason := confidence_reason m |}.

Definition set_metrics (m : ModelEntity) (x : PerformanceMetrics)
  : ModelEntity :=
  {| name := name m; organization := organization m;
     modalities := modalities m; metrics := x; ranks := ranks m;
     signals := signals m; final_score := final_score m;
     confidence_score := confidence_score m;
     confidence_reason := confidence_reason m |}.

Definition set_ranks (m : ModelEntity) (x : RankScores) : ModelEntity :=
  {| name := name m; organization := organization m;
     modalities := modalities m; metrics := metrics m; ranks := x;
     signals := signals m; final_score := final_score m;
     confidence_score := confidence_score m;
     confidence_reason := confidence_reason m |}.

Definition set_signals (m : ModelEntity) (x : list Signal) : ModelEntity :=
  {| name := name m; organization := organization m;
     modalities := modalities m; metrics := metrics m; ranks := ranks m;
     signals := x; final_score := final_score m;
     confidence_score := confidence_score m;
     confidence_reason := confidence_reason m |}.

Definition set_final_score (m : ModelEntity) (x : R) : ModelEntity :=
  {| name := name m; organization := organization m;
     modalities := modalities m; metrics := metrics m; ranks := ranks m;
     signals := signals m; final_score := x;
     confidence_score := confidence_score m;
     confidence_reason := confidence_reason m |}.

Definition set_confidence_score (m : ModelEntity) (x : R) : ModelEntity :=
  {| name := name m; organization := organization m;
     modalities := modalities m; metrics := metrics m; ranks := ranks m;
     signals := signals m; final_score := final_score m;
     confidence_score := x; confidence_reason := confidence_reason m |}.

Definition set_confidence_reason (m : ModelEntity) (x : string)
  : ModelEntity :=
  {| name := name m; organization := organization m;
     modalities := modalities m; metrics := metrics m; ranks := ranks m;
     signals := signals m; final_score := final_score m;
     confidence_score := confidence_score m; confidence_reason := x |}.

Definition set_recency_bonus (p : PerformanceMetrics) (x : Z)
  : PerformanceMetrics :=
  {| reasoning_score := reasoning_score p; coding_score := coding_score p;
     creative_score := creative_score p; context_window := context_window p;
     price_input_1m := price_input_1m p; tokens_per_sec := tokens_per_sec p;
     is_open_source := is_open_source p;
     is_enterprise_ready := is_enterprise_ready p;
     last_updated_days_ago := last_updated_days_ago p;
     org_maturity := org_maturity p; uptime_sla := uptime_sla p;
     recency_bonus := x |}.

(** ** [ModelEntity] methods *)

(** [AddSignal]: a non-positive observation is dropped, a positive one is
    clamped to [0,1] and pushed back. *)
Definition AddSignal (src : string) (sc w : R) (m : ModelEntity)
  : ModelEntity :=
  if Rltb 0.0 sc
  then set_signals m
         (signals m ++ [{| source := src; score := Std.clamp sc 0.0 1.0;
                           weight := w |}])
  else m.

(** The accumulation loop of [ComputeAggregates]: the pair is
    [(weighted_sum, total_weight)]. *)
Definition accumulate (acc : R * R) (s : Signal) : R * R :=
  (fst acc + score s * weight s, snd acc + weight s).

(** The recency ladder of [ComputeAggregates]. *)
Definition recency_of_days (days : Z) : Z :=
  if (days <=? 30)%Z then 3
  else if (days <=? 90)%Z then 2
  else if (days <=? 180)%Z then 1
  else 0.

Definition ComputeAggregates (m : ModelEntity) : ModelEntity :=
  let m1 :=
    match signals m with
    | _ :: _ =>
        let acc := fold_left accumulate (signals m) (0.0, 0.0) in
        let weighted_sum := fst acc in
        let total_weight := snd acc in
        set_final_score m
          (if Rltb 0 total_weight then weighted_sum / total_weight else 0.0)
    | [] =>
        set_confidence_reason (set_final_score m 0.0) "No Verified Signals"
    end in
  set_metrics m1
    (set_recency_bonus (metrics m1)
       (recency_of_days (last_updated_days_ago (metrics m1)))).

(** The variance block of [RecalculateConfidence]: [sq_sum] is the
    [std::inner_product] of the score vector with itself around [mean], and
    the variable the source calls [variance] is the square root of its
    average, taken only when there are at least two scores. *)
Definition sq_sum (scores : list R) (mean : R) : R :=
  Std.inner_product scores scores 0.0 Rplus
    (fun x y => (x - mean) * (y - mean)).

Definition variance (m : ModelEntity) : R :=
  let scores := map score (signals m) in
  let mean := final_score m in
  if (1 <? List.length scores)%nat
  then Std.sqrt (sq_sum scores mean / INR (List.length scores))
  else 0.0.

Definition is_versatile (m : ModelEntity) : bool :=
  (Rltb 0.75 (coding_score (metrics m))
   && Rltb 0.75 (creative_score (metrics m)))
  || (1 <? ModSet.size (modalities m))%nat.

Definition ComputeRankings (m : ModelEntity) : ModelEntity :=
  let p := metrics m in
  let conf_factor := confidence_score m / 100.0 in
  (* 1. Overall *)
  let price_factor := 1.0 / (1.0 + price_input_1m p / 10.0) in
  let r_overall :=
    ((final_score m * Config.Weights.OVERALL_CORE)
     + (coding_score p * Config.Weights.OVERALL_CODING)
     + (creative_score p * Config.Weights.OVERALL_CREATIVE)
     + (conf_factor * Config.Weights.OVERALL_CONFIDENCE)
     + (price_factor * Config.Weights.OVERALL_PRICE)) * 100.0 in
  (* 2. Value *)
  let r_value :=
    if Rleb (price_input_1m p) 0.0
    then final_score m * 1000.0
    else
      let log_price := Std.log10 (price_input_1m p + 1.0) in
      (final_score m * final_score m) / (log_price + 0.1) in
  (* 3. Coding *)
  let ctx_norm := Std.clamp (context_window p / 200000.0) 0.0 1.0 in
  let r_coding :=
    ((coding_score p * 0.6)
     + (reasoning_score p * 0.2)
     + (ctx_norm * 0.1)
     + (conf_factor * 0.1)) * 100.0 in
  (* 4. Image *)
  let speed_norm := Std.clamp (tokens_per_sec p / 150.0) 0.0 1.0 in
  let r_image0 :=
    ((final_score m * 0.5) + (creative_score p * 0.3)
     + (speed_norm * 0.1) + (conf_factor * 0.1)) * 100.0 in
  let r_image :=
    if (ModSet.count (modalities m) Image =? 0)%nat then 0.0 else r_image0 in
  (* 5. Video *)
  let r_video0 :=
    ((final_score m * 0.5) + (creative_score p * 0.3)
     + (conf_factor * 0.1) + (speed_norm * 0.1)) * 100.0 in
  let r_video :=
    if (ModSet.count (modalities m) Video =? 0)%nat
    then r_video0 * 0.3 else r_video0 in
  (* 6. Speed *)
  let speed_base := Std.clamp (tokens_per_sec p / 200.0) 0.0 1.0 in
  let r_speed :=
    ((speed_base * 0.7) + (conf_factor * 0.2) + (price_factor * 0.1))
    * 100.0 in
  (* 7. Confidence *)
  let r_confidence := confidence_score m in
  (* 8. Enterprise *)
  let r_enterprise :=
    ((conf_factor * 0.4) + (uptime_sla p * 0.3) + (org_maturity p * 0.3))
    * 100.0 in
  set_ranks m
    {| overall := r_overall; value := r_value; coding := r_coding;
       image := r_image; video := r_video; speed := r_speed;
       confidence := r_confidence; enterprise := r_enterprise |}.

(** [RecalculateConfidence].  The running pair is [(conf,
    confidence_reason)]; every step below is one statement of the source, in
    the source's order. *)
Definition RecalculateConfidence (m : ModelEntity) : ModelEntity :=
  let m0 := set_confidence_reason m "" in
  let m1 :=
    match signals m0 with
    | _ :: _ =>
        let p := metrics m0 in
        let conf := Config.Weights.CONFIDENCE_BASE in
        let reason := confidence_reason m0 in
        (* signal count bonus *)
        let conf :=
          conf + INR (List.length (signals m0))
                 * Config.Weights.CONFIDENCE_SIGNAL_BONUS in
        (* recency bonus *)
        let cr :=
          if (last_updated_days_ago p <=? 30)%Z
          then (conf + Config.Weights.CONFIDENCE_RECENCY_BONUS,
                (reason ++ "Recent Verification, ")%string)
          else if (last_updated_days_ago p <=? 90)%Z
          then (conf + Config.Weights.CONFIDENCE_RECENCY_BONUS * 0.5, reason)
          else (conf, reason) in
        (* versatility bonus *)
        let cr :=
          if is_versatile m0
          then (fst cr + Config.Weights.CONFIDENCE_VERSATILE_BONUS,
                (snd cr ++ "Multi-Category Verified, ")%string)
          else cr in
        let conf := fst cr in
        let reason := snd cr in
        (* score quality bonus *)
        let conf :=
          if Rltb 0.85 (final_score m0) then conf + 15.0
          else if Rltb 0.75 (final_score m0) then conf + 10.0
          else if Rltb 0.65 (final_score m0) then conf + 5.0
          else if Rltb (final_score m0) 0.40 then conf - 10.0
          else conf in
        (* variance penalty *)
        let conf :=
          conf - (variance m0 * Config.Weights.CONFIDENCE_VARIANCE_PENALTY) in
        (* enterprise readiness bonus *)
        let conf := if is_enterprise_ready p then conf + 5.0 else conf in
        let reason :=
          if (3 <=? List.length (signals m0))%nat
          then (reason ++ "High Consensus")%string else reason in
        set_confidence_score (set_confidence_reason m0 reason)
          (Std.clamp conf 10.0 99.0)
    | [] => set_confidence_score m0 10.0
    end in
  ComputeRankings m1.

(** [ToJSON], the ["ranks"] object: every score clamped to [0,100]. *)
Definition ToJSON_ranks (m : ModelEntity) : RankScores :=
  let r := ranks m in
  {| overall := Std.clamp (overall r) 0.0 100.0;
     value := Std.clamp (value r) 0.0 100.0;
     coding := Std.clamp (coding r) 0.0 100.0;
     image := Std.clamp (image r) 0.0 100.0;
     video := Std.clamp (video r) 0.0 100.0;
     speed := Std.clamp (speed r) 0.0 100.0;
     confidence := Std.clamp (confidence r) 0.0 100.0;
     enterprise := Std.clamp (enterprise r) 0.0 100.0 |}.

(** [ToJSON], the ["primary_type"] string. *)
Definition ToJSON_primary_type (m : ModelEntity) : string :=
  if (0 <? ModSet.count (modalities m) Video)%nat then "Video"
  else if (0 <? ModSet.count (modalities m) Image)%nat
          && (ModSet.size (modalities m) =? 1)%nat then "Image"
  else if (1 <? ModSet.size (modalities m))%nat then "Multimodal"
  else "Text".

(** [ToJSON], the ["metrics"] entries the page script filters on. *)
Definition ToJSON_metrics_score (m : ModelEntity) : R :=
  Std.clamp (final_score m * 100.0) 0.0 100.0.


(** ** JSON values ([nlohmann::json]) *)

#[local] Set Warnings "-register-all".

Inductive json : Type :=
| JNull
| JBool (b : bool)
| JNumber (x : R)
| JString (s : string)
| JArray (items : list json)
| JObject (members : list (string * json)).

Module Json.

Fixpoint lookup (key : string) (members : list (string * json))
  : option json :=
  match members with
  | [] => None
  | (k, v) :: rest => if String.eqb k key then Some v else lookup key rest
  end.

Definition find (j : json) (key : string) : option json :=
  match j with
  | JObject members => lookup key members
  | _ => None
  end.

(** [j.contains(key)]: false on anything that is not an object. *)
Definition contains (j : json) (key : string) : bool :=
  match find j key with Some _ => true | None => false end.

(** [j[key]] on a const value.  Every use in the source is guarded by
    [contains]; the unguarded case is given [JNull] here. *)
Definition at_key (j : json) (key : string) : json :=
  match find j key with Some v => v | None => JNull end.

Definition is_null (j : json) : bool :=
  match j with JNull => true | _ => false end.
Definition is_number (j : json) : bool :=
  match j with JNumber _ => true | _ => false end.
Definition is_string (j : json) : bool :=
  match j with JString _ => true | _ => false end.
Definition is_array (j : json) : bool :=
  match j with JArray _ => true | _ => false end.

(** [j.get<std::string>()]: [None] stands for the [json::type_error] thrown
    on a value that is not a string. *)
Definition get_string (j : json) : option string :=
  match j with JString s => Some s | _ => None end.

(** [j.value(key, default)] at type [std::string], on an object: the
    member converted when it is present, the default otherwise. *)
Definition value_string (j : json) (key default : string) : option string :=
  match find j key with
  | Some v => get_string v
  | None => Some default
  end.

End Json.

(** ** Utils *)

Module Utils.

(** [::tolower] in the C locale. *)
Definition tolower (c : ascii) : ascii :=
  let n := nat_of_ascii c in
  if ((65 <=? n) && (n <=? 90))%nat then ascii_of_nat (n + 32) else c.

Fixpoint ToLower (str : string) : string :=
  match str with
  | EmptyString => EmptyString
  | String c rest => String (tolower c) (ToLower rest)
  end.

(** [hay.find(needle) != std::string::npos]. *)
Definition found (hay needle : string) : bool :=
  match String.index 0 needle hay with Some _ => true | None => false end.

Section WithStod.
(** [std::stod]: [None] when it throws. *)
Variable stod : string -> option R.

(** [TryGetDouble(j, key, out)]: [Some out] when it returns true. *)
Definition TryGetDouble (j : json) (key : string) : option R :=
  if negb (Json.contains j key) || Json.is_null (Json.at_key j key)
  then None
  else
    match Json.at_key j key with
    | JNumber x => Some x
    | JString str => stod str
    | _ => None
    end.
End WithStod.

End Utils.

(** ** Knowledge base *)

Module KnowledgeBase.
Import Utils.

(** The loop over [rawItem["modalities"]]. *)
Fixpoint insert_listed (mods : list json) (s : ModalitySet)
  : option ModalitySet :=
  match mods with
  | [] => Some s
  | md :: rest =>
      match Json.get_string md with
      | None => None
      | Some str =>
          let modStr := ToLower str in
          let s' :=
            if String.eqb modStr "image" || String.eqb modStr "vision"
            then ModSet.insert Image s
            else if String.eqb modStr "video" then ModSet.insert Video s
            else if String.eqb modStr "text" then ModSet.insert Text s
            else s in
          insert_listed rest s'
      end
  end.

(** The fallback on the lower-cased name [n]. *)
Definition insert_by_name (n : string) (s : ModalitySet) : ModalitySet :=
  if found n "midjourney" || found n "stable diffusion"
     || found n "dall-e" || found n "imagen"
  then ModSet.insert Text (ModSet.insert Image s)
  else if found n "sora" || found n "runway"
          || found n "gen-2" || found n "gen-3"
          || found n "pika" || found n "animatediff"
          || found n "stable video" || found n "kling"
          || found n "video generation"
  then ModSet.insert Text (ModSet.insert Video s)
  else if found n "gpt-4" || found n "gpt-5"
          || found n "claude 3" || found n "claude 4"
          || found n "gemini"
          || (found n "qwen" && found n "vl")
          || found n "llama 3.2 11b" || found n "llama 3.2 90b"
          || (found n "grok"
              && (found n "-2" || found n "-3" || found n "-4"))
          || found n "pixtral" || found n "qvq"
          || found n "vision" || found n "-vl"
          || found n "diffusion"
  then ModSet.insert Text (ModSet.insert Image s)
  else ModSet.insert Text s.

Definition detect_modalities (n : string) (rawItem : json) (s : ModalitySet)
  : option ModalitySet :=
  if Json.contains rawItem "modalities"
  then
    match Json.at_key rawItem "modalities" with
    | JArray mods => insert_listed mods s
    | _ => Some (insert_by_name n s)
    end
  else Some (insert_by_name n s).

Definition present (rawItem : json) (key : string) : bool :=
  Json.contains rawItem key && negb (Json.is_null (Json.at_key rawItem key)).

Section WithStod.
Variable stod : string -> option R.

(** [Enrich(m, rawItem)]; [None] when a [json::exception] escapes. *)
Definition Enrich (m : ModelEntity) (rawItem : json)
  : option ModelEntity :=
  let n := ToLower (name m) in
  let o := ToLower (organization m) in
  match detect_modalities n rawItem (modalities m) with
  | None => None
  | Some mods =>
      let m := set_modalities m mods in
      let price :=
        match TryGetDouble stod rawItem "input_price" with
        | Some raw_price =>
            if Rltb raw_price 1.0 && Rltb 0.0 raw_price
            then raw_price * 1000000.0 else raw_price
        | None =>
            if found n "gpt-4" then 10.0
            else if found n "flash" then 0.25
            else 0.0
        end in
      let open_source :=
        found n "llama" || found n "mistral"
        || found n "qwen" || found n "falcon" in
      let enterprise_ready :=
        String.eqb o "openai" || String.eqb o "anthropic"
        || String.eqb o "google" || String.eqb o "microsoft" in
      let maturity := if enterprise_ready then 0.95 else 0.5 in
      let sla := if enterprise_ready then 0.99 else 0.8 in
      let coding :=
        match TryGetDouble stod rawItem "coding_score" with
        | Some c => c
        | None =>
            match TryGetDouble stod rawItem "humaneval" with
            | Some c => c
            | None =>
                if found n "code" then final_score m * 1.05
                else final_score m * 0.85
            end
        end in
      let reasoning := final_score m in
      let creative :=
        match TryGetDouble stod rawItem "creative_score" with
        | Some c => Std.min 1.0 c
        | None =>
            if (negb (ModSet.count (modalities m) Image =? 0)
                || negb (ModSet.count (modalities m) Video =? 0))%nat
            then Std.min 1.0 (final_score m * 1.1)
            else if found n "gpt-4" || found n "claude"
                    || found n "gemini"
            then Std.min 1.0 (final_score m * 0.95)
            else Std.min 1.0 (final_score m * 0.80)
        end in
      let ctx :=
        match TryGetDouble stod rawItem "context_length" with
        | Some ctx_len_double => Std.min 1.0 (ctx_len_double / 200000.0)
        | None =>
            if found n "128k" || found n "200k" then 0.8 else 0.5
        end in
      let tps :=
        match TryGetDouble stod rawItem "throughput" with
        | Some throughput => throughput
        | None =>
            match TryGetDouble stod rawItem "tokens_per_second" with
            | Some throughput => throughput
            | None =>
                if found n "turbo" then 120.0
                else if found n "flash" then 150.0
                else if found n "mini" then 100.0
                else 50.0
            end
        end in
      let days : Z :=
        (if present rawItem "release_date" then 90
         else if present rawItem "updated_at" then 60
         else if found n "2025" then 15
         else if found n "2024" then 90
         else if found n "2023" then 365
         else 180)%Z in
      Some (set_metrics m
              {| reasoning_score := reasoning; coding_score := coding;
                 creative_score := creative; context_window := ctx;
                 price_input_1m := price; tokens_per_sec := tps;
                 is_open_source := open_source;
                 is_enterprise_ready := enterprise_ready;
                 last_updated_days_ago := days;
                 org_maturity := maturity; uptime_sla := sla;
                 recency_bonus := recency_bonus (metrics m) |})
  end.
End WithStod.

End KnowledgeBase.

(** ** Export system: the comparators handed to [std::sort] *)

Module DataExporter.

(** The [tieBreakerSort] lambda of [ExportCSV]. *)
Definition csv_tieBreakerSort (a b : ModelEntity) (scoreA scoreB : R)
  : bool :=
  let diff := Std.abs (scoreA - scoreB) in
  if Rleb diff Config.Weights.TIE_THRESHOLD
  then (recency_bonus (metrics b) <? recency_bonus (metrics a))%Z
  else Rltb scoreB scoreA.

(** [ExportCSV], type ["performance"]. *)
Definition csv_performance_less (a b : ModelEntity) : bool :=
  csv_tieBreakerSort a b (overall (ranks a)) (overall (ranks b)).


(** The [tieBreakerSort] lambda of [ExportLegacyText]. *)
Definition legacy_tieBreakerSort (a b : ModelEntity) (scoreA scoreB : R)
  : bool :=
  let diff := Std.abs (scoreA - scoreB) in
  if Rleb diff (Config.Weights.TIE_THRESHOLD * 100.0)
  then (recency_bonus (metrics b) <? recency_bonus (metrics a))%Z
  else Rltb scoreB scoreA.

Definition legacy_less (a b : ModelEntity) : bool :=
  legacy_tieBreakerSort a b (overall (ranks a) * 100) (overall (ranks b) * 100).




(** The row loop shared by the exports: [rank] starts at 1, a row is
    written, [rank] is incremented and the loop breaks once it exceeds
    [limit] (100 for the CSV files, 50 for the legacy text). *)
Fixpoint emit_rows (limit rank : Z) (sorted : list ModelEntity)
  : list (Z * ModelEntity) :=
  match sorted with
  | [] => []
  | m :: rest =>
      (rank, m)
      :: (if (limit <? rank + 1)%Z then []
          else emit_rows limit (rank + 1) rest)
  end.

Section WithSort.
(** [std::sort] with a comparator: some rearrangement of its input. *)
Variable std_sort :
  (ModelEntity -> ModelEntity -> bool) -> list ModelEntity -> list ModelEntity.


End WithSort.

End DataExporter.

(** ** Dashboard view: the comparator of [filtered.sort] in the page script *)

Module DashboardView.

Inductive RankKey : Set :=
| K_overall | K_value | K_coding | K_image | K_video | K_speed
| K_confidence | K_enterprise.

Inductive SortMode : Set :=
| default_mode | price_asc | speed_desc | conf_desc.

Definition rank_at (r : RankScores) (k : RankKey) : R :=
  match k with
  | K_overall => overall r
  | K_value => value r
  | K_coding => coding r
  | K_image => image r
  | K_video => video r
  | K_speed => speed r
  | K_confidence => confidence r
  | K_enterprise => enterprise r
  end.

(** The script reads the document written by [ToJSON]: [ranks] are the
    clamped scores, [metrics.price], [metrics.speed] and
    [meta.confidence] are passed through.  A negative result puts [a]
    first, a positive one puts [b] first. *)
Definition compare (sortMode : SortMode) (rankKey : RankKey)
    (a b : ModelEntity) : R :=
  match sortMode with
  | price_asc => price_input_1m (metrics a) - price_input_1m (metrics b)
  | speed_desc => tokens_per_sec (metrics b) - tokens_per_sec (metrics a)
  | conf_desc => confidence_score b - confidence_score a
  | default_mode =>
      let scoreA := rank_at (ToJSON_ranks a) rankKey in
      let scoreB := rank_at (ToJSON_ranks b) rankKey in
      if Rleb (Std.abs (scoreA - scoreB)) 0.5
      then IZR (recency_bonus (metrics b) - recency_bonus (metrics a))
      else scoreB - scoreA
  end.

(** The tabs of the page ([views]) with their [rankKey]. *)
Inductive View : Set :=
| V_overall | V_value | V_coding | V_image | V_video | V_speed | V_conf
| V_enterprise | V_opensource | V_ecosystem.

Definition rankKey (v : View) : RankKey :=
  match v with
  | V_overall => K_overall
  | V_value => K_value
  | V_coding => K_coding
  | V_image => K_image
  | V_video => K_video
  | V_speed => K_speed
  | V_conf => K_confidence
  | V_enterprise => K_enterprise
  | V_opensource => K_overall
  | V_ecosystem => K_overall
  end.


End DashboardView.

(** ** Engine: the ingestion loop of [IntelligenceEngine::Run] *)

Module IntelligenceEngine.

Record State : Type := {
  registry : list ModelEntity;
  processed : Z;
  skipped : Z
}.

Definition initial : State :=
  {| registry := []; processed := 0; skipped := 0 |}.

Definition skip (st : State) : State :=
  {| registry := registry st; processed := processed st;
     skipped := (skipped st + 1)%Z |}.

Definition accept (st : State) (m : ModelEntity) : State :=
  {| registry := registry st ++ [m];
     processed := (processed st + 1)%Z; skipped := skipped st |}.

(** The duplicate scan over the registry. *)
Definition exists_in (reg : list ModelEntity) (nm : string) : bool :=
  existsb (fun r => String.eqb (name r) nm) reg.

Section WithStod.
Variable stod : string -> option R.

(** The two [AddSignal] calls of the loop body. *)
Definition add_item_signals (item : json) (m : ModelEntity)
  : ModelEntity :=
  match Utils.TryGetDouble stod item "gpqa_score" with
  | Some sc =>
      if Rleb 0.0 sc && Rleb sc 1.0
      then AddSignal "ZeroEval GPQA" sc 0.50 m
      else m
  | None =>
      match Utils.TryGetDouble stod item "average_score" with
      | Some sc =>
          if Rleb 0.0 sc && Rleb sc 1.0
          then AddSignal "Avg Score" sc 0.40 m
          else m
      | None => m
      end
  end.

(** The loop body from [item.value("organization", ...)] to the end of
    stage 5; [None] when a [json::exception] is thrown. *)
Definition build (nm : string) (item : json) : option ModelEntity :=
  match Json.value_string item "organization" "Unknown" with
  | None => None
  | Some org =>
      let m := new_ModelEntity nm org in
      let m := add_item_signals item m in
      let m := ComputeAggregates m in
      match KnowledgeBase.Enrich stod m item with
      | None => None
      | Some m => Some (RecalculateConfidence m)
      end
  end.

(** One iteration of [for (const auto& item : data)]. *)
Definition process_item (st : State) (item : json) : State :=
  if negb (Json.contains item "name")
     || Json.is_null (Json.at_key item "name")
     || negb (Json.is_string (Json.at_key item "name"))
  then skip st
  else
    match Json.get_string (Json.at_key item "name") with
    | None => skip st
    | Some nm =>
        if String.eqb nm "" then skip st
        else if exists_in (registry st) nm then st
        else
          match build nm item with
          | None => skip st
          | Some m =>
              if Rltb 0 (final_score m) then accept st m else st
          end
    end.

Definition run_loop (st : State) (data : list json) : State :=
  fold_left process_item data st.

(** [Run] from the parsed payload on: a payload that is not an array
    ends the run before the loop. *)
Definition Run (st : State) (data : json) : State :=
  match data with
  | JArray items => run_loop st items
  | _ => st
  end.
End WithStod.

(** [OrgStats] and the [std::map<std::string, OrgStats>] of the engine, as
    a list of entries with pairwise distinct keys; only look-ups are
    observed, so the order of the entries plays no role. *)
Record OrgStats : Type := {
  model_count : Z;
  avg_score : R
}.

Definition OrgMap : Type := list (string * OrgStats).

Fixpoint org_find (org : string) (stats : OrgMap) : option OrgStats :=
  match stats with
  | [] => None
  | (k, v) :: rest => if String.eqb k org then Some v else org_find org rest
  end.

(** [orgStats[org].model_count++; orgStats[org].avg_score += x;], where
    [operator[]] inserts a zero entry for a new key. *)
Fixpoint org_add (org : string) (x : R) (stats : OrgMap) : OrgMap :=
  match stats with
  | [] => [(org, {| model_count := 0 + 1; avg_score := 0.0 + x |})]
  | (k, v) :: rest =>
      if String.eqb k org
      then (k, {| model_count := model_count v + 1;
                  avg_score := avg_score v + x |}) :: rest
      else (k, v) :: org_add org x rest
  end.

(** The key a record is counted under. *)
Definition org_key (m : ModelEntity) : string :=
  if String.eqb (organization m) "" then "Other" else organization m.

Definition ComputeEcosystemShares (reg : list ModelEntity) (stats : OrgMap)
  : OrgMap :=
  fold_left (fun acc m => org_add (org_key m) (final_score m) acc) reg stats.

(** [ProcessToJSON], the ["ecosystem"] object. *)
Definition ecosystem_score (s : OrgStats) : R :=
  let avg :=
    if (0 <? model_count s)%Z then avg_score s / IZR (model_count s)
    else 0.0 in
  (IZR (model_count s) * 0.4) + (avg * 10.0 * 0.3).

Definition ProcessToJSON_ecosystem (stats : OrgMap) : list (string * R) :=
  map (fun e => (fst e, ecosystem_score (snd e))) stats.

End IntelligenceEngine.

(** ** Notions used to state the properties *)

Definition Rsum (l : list R) : R := fold_right Rplus 0 l.

(** The weighted arithmetic mean of a signal list, as a formula. *)
Definition weighted_mean (sigs : list Signal) : R :=
  Rsum (map (fun s => score s * weight s) sigs) / Rsum (map weight sigs).

(** One call [AddSignal(source, score, weight)], and a sequence of them. *)
Record SignalCall : Type := {
  call_source : string;
  call_score : R;
  call_weight : R
}.

Definition add_signals (calls : list SignalCall) (m : ModelEntity)
  : ModelEntity :=
  fold_left
    (fun e c => AddSignal (call_source c) (call_score c) (call_weight c) e)
    calls m.

(** What a signal list looks like once it went through [AddSignal] with
    positive weights. *)
Definition retained (s : Signal) : Prop :=
  0 < score s <= 1 /\ 0 < weight s.

(** An enrichment result: the modality set and the metrics are replaced,
    nothing else is touched. *)
Definition enriched_with (m : ModelEntity) (ms : ModalitySet)
    (p : PerformanceMetrics) : ModelEntity :=
  set_metrics (set_modalities m ms) p.

(** The running total of [RecalculateConfidence] before the final clamp,
    in closed form. *)
Definition recency_term (days : Z) : R :=
  if (days <=? 30)%Z then 5
  else if (days <=? 90)%Z then 5 * 0.5
  else 0.

Definition quality_term (fs : R) : R :=
  if Rltb 0.85 fs then 15
  else if Rltb 0.75 fs then 10
  else if Rltb 0.65 fs then 5
  else if Rltb fs 0.40 then - 10
  else 0.

Definition bonus_total (n : nat) (ms : ModalitySet) (p : PerformanceMetrics)
    (fs : R) : R :=
  50 + INR n * 10
  + recency_term (last_updated_days_ago p)
  + (if (Rltb 0.75 (coding_score p) && Rltb 0.75 (creative_score p))
        || (1 <? ModSet.size ms)%nat then 10 else 0)
  + quality_term fs
  + (if is_enterprise_ready p then 5 else 0).

Definition raw_confidence (m : ModelEntity) : R :=
  bonus_total (List.length (signals m)) (modalities m) (metrics m)
              (final_score m)
  - variance m * 50.

(** The view formula shared by the image and the video scores. *)
Definition generation_score (m : ModelEntity) : R :=
  (0.5 * final_score m + 0.3 * creative_score (metrics m)
   + 0.1 * Std.clamp (tokens_per_sec (metrics m) / 150) 0 1
   + 0.1 * (confidence_score m / 100)) * 100.

(** [std::stod] of the examples: the sample payloads carry native numbers
    only, so no string is ever parsed. *)
Definition no_stod (_ : string) : option R := None.

(** The statements of the specification that the code departs from, as
    formulas of their own. *)
Module Claimed.

(** Coding view: the context window is a token count, normalised once
    against the 200,000-token ceiling. *)
Definition coding_view (coding_sc reasoning_sc context_tokens conf : R)
  : R :=
  (0.6 * coding_sc + 0.2 * reasoning_sc
   + 0.1 * Std.clamp (context_tokens / 200000) 0 1
   + 0.1 * (conf / 100)) * 100.

(** Tie-break rule on the 0-100 scale: within 0.5 points the recency tier
    decides, otherwise the score does. *)
Definition sorts_first (a b : ModelEntity) (scoreA scoreB : R) : bool :=
  if Rleb (Rabs (scoreA - scoreB)) 0.5
  then (recency_bonus (metrics b) <? recency_bonus (metrics a))%Z
  else Rltb scoreB scoreA.

(** Ingestion: a GPQA signal when [gpqa_score] parses to a value in
    [0,1], otherwise an average-score signal when [average_score] parses
    to a value in [0,1], otherwise none. *)
Definition in_unit (x : option R) : option R :=
  match x with
  | Some sc => if Rleb 0 sc && Rleb sc 1 then Some sc else None
  | None => None
  end.

Definition item_signals (stod : string -> option R) (item : json)
  : list Signal :=
  match in_unit (Utils.TryGetDouble stod item "gpqa_score") with
  | Some sc => [{| source := "ZeroEval GPQA"; score := sc; weight := 0.50 |}]
  | None =>
      match in_unit (Utils.TryGetDouble stod item "average_score") with
      | Some sc => [{| source := "Avg Score"; score := sc; weight := 0.40 |}]
      | None => []
      end
  end.

End Claimed.

(** What the ingestion loop attaches, in closed form. *)
Definition positive_unit (x : option R) : option R :=
  match x with
  | Some sc => if Rltb 0 sc && Rleb sc 1 then Some sc else None
  | None => None
  end.

Definition attached_signals (stod : string -> option R) (item : json)
  : list Signal :=
  match Utils.TryGetDouble stod item "gpqa_score" with
  | Some sc =>
      match positive_unit (Some sc) with
      | Some x => [{| source := "ZeroEval GPQA"; score := x; weight := 0.50 |}]
      | None => []
      end
  | None =>
      match positive_unit (Utils.TryGetDouble stod item "average_score") with
      | Some x => [{| source := "Avg Score"; score := x; weight := 0.40 |}]
      | None => []
      end
  end.

(** Sample payload entries. *)
Definition item_of (nm : string) (fields : list (string * json)) : json :=
  JObject (("name"%string, JString nm) :: fields).

(** The population standard deviation of the signal scores around the
    aggregate, as a formula. *)
Definition population_std_dev (m : ModelEntity) : R :=
  R_sqrt.sqrt
    (Rsum (map (fun s => (score s - final_score m) * (score s - final_score m))
               (signals m))
     / INR (List.length (signals m))).


Definition sample_record (scores : list R) (fs : R) : ModelEntity :=
  set_final_score
    (set_signals (new_ModelEntity "sample" "lab")
       (map (fun x => {| source := "S"; score := x; weight := 0.5 |}) scores))
    fs.

Definition agreeing : ModelEntity := sample_record [0.5; 0.5] 0.5.
Definition disagreeing : ModelEntity := sample_record [0.4; 0.6] 0.5.

Definition free_sample : ModelEntity := sample_record [0.6] 0.6.

Definition item_ctx200k : json :=
  item_of "m" [("gpqa_score"%string, JNumber 0.5);
               ("context_length"%string, JNumber 200000)].

Definition item_a : json := item_of "a" [("gpqa_score"%string, JNumber 0.5)].
Definition item_b : json := item_of "b" [("gpqa_score"%string, JNumber 0.503)].

Definition item_zero : json := item_of "z" [("gpqa_score"%string, JNumber 0)].
Definition item_out_of_range : json :=
  item_of "o" [("gpqa_score"%string, JNumber 1.5);
               ("average_score"%string, JNumber 0.7)].

Definition item_nameless : json := JObject [("gpqa_score"%string, JNumber 0.5)].

(** A record with a given overall score and recency tier. *)
Definition ranked (ov : R) (tier : Z) : ModelEntity :=
  set_metrics
    (set_ranks (new_ModelEntity "ranked" "lab")
       {| overall := ov; value := 0; coding := 0; image := 0; video := 0;
          speed := 0; confidence := 0; enterprise := 0 |})
    (set_recency_bonus default_metrics tier).



(** The signals a sequence of calls leaves behind: the calls with a
    positive score, in call order, the score clamped. *)
Definition kept_signal (c : SignalCall) : Signal :=
  {| source := call_source c; score := Std.clamp (call_score c) 0 1;
     weight := call_weight c |}.

Definition kept_signals (calls : list SignalCall) : list Signal :=
  map kept_signal (filter (fun c => Rltb 0 (call_score c)) calls).

(** The records of a registry counted under a given organization key. *)
Definition members (k : string) (reg : list ModelEntity) : list ModelEntity :=
  filter (fun m => String.eqb (IntelligenceEngine.org_key m) k) reg.

Definition total_count (stats : IntelligenceEngine.OrgMap) : Z :=
  fold_right Z.add 0%Z (map (fun e => IntelligenceEngine.model_count (snd e)) stats).



Definition item_bad_modalities : json :=
  item_of "x" [("gpqa_score"%string, JNumber 0.5);
               ("modalities"%string, JArray [JString "text"; JNumber 1])].

(** The same record at another price. *)
Definition set_price (p : PerformanceMetrics) (x : R) : PerformanceMetrics :=
  {| reasoning_score := reasoning_score p; coding_score := coding_score p;
     creative_score := creative_score p; context_window := context_window p;
     price_input_1m := x; tokens_per_sec := tokens_per_sec p;
     is_open_source := is_open_source p;
     is_enterprise_ready := is_enterprise_ready p;
     last_updated_days_ago := last_updated_days_ago p;
     org_maturity := org_maturity p; uptime_sla := uptime_sla p;
     recency_bonus := recency_bonus p |}.

Definition with_price (m : ModelEntity) (x : R) : ModelEntity :=
  set_metrics m (set_price (metrics m) x).

(** Union of modality sets, and the set of days [Enrich] can assign. *)
Definition mod_union (a b : ModalitySet) : ModalitySet :=
  {| has_text := has_text a || has_text b;
     has_image := has_image a || has_image b;
     has_video := has_video a || has_video b |}.

Definition enrich_days : list Z := [15; 60; 90; 180; 365]%Z.

(** A payload entry whose ["modalities"] member is an array holding
    something that is not a string. *)
Definition bad_modalities (item : json) : Prop :=
  exists mods v,
    Json.find item "modalities" = Some (JArray mods)
    /\ In v mods /\ Json.is_string v = false.

Definition bad_organization (item : json) : Prop :=
  exists v, Json.find item "organization" = Some v /\ Json.is_string v = false.

(** An entry is inert from a registry on when no later state, whose registry
    extends that one, lets it into the registry. *)
Definition inert_from (stod : string -> option R) (reg : list ModelEntity)
    (item : json) : Prop :=
  forall st2 l,
    IntelligenceEngine.registry st2 = reg ++ l ->
    IntelligenceEngine.registry (IntelligenceEngine.process_item stod st2 item)
    = IntelligenceEngine.registry st2
    /\ IntelligenceEngine.processed
         (IntelligenceEngine.process_item stod st2 item)
       = IntelligenceEngine.processed st2.

(** The counters held for a key, zero when the key is absent. *)
Definition stats_at (k : string) (stats : IntelligenceEngine.OrgMap) : Z * R :=
  match IntelligenceEngine.org_find k stats with
  | Some s => (IntelligenceEngine.model_count s, IntelligenceEngine.avg_score s)
  | None => (0%Z, 0)
  end.

Definition sample_registry : list ModelEntity :=
  [agreeing; disagreeing; free_sample].

(** ** The signal arithmetic over binary64

    [AddSignal] as it acts on the [signals] vector and the value
    [ComputeAggregates] stores in [final_score], with [double] read as an
    IEEE 754 binary64 number. *)

Module Binary64.
Import PrimFloat.
#[local] Set Warnings "-inexact-float".

Record Signal : Type := {
  source : string;
  score : float;
  weight : float
}.

Definition clamp (v lo hi : float) : float :=
  if (v <? lo)%float then lo else if (hi <? v)%float then hi else v.

Definition AddSignal (src : string) (sc w : float) (signals : list Signal)
  : list Signal :=
  if (0.0 <? sc)%float
  then signals ++ [{| source := src; score := clamp sc 0.0%float 1.0%float;
                      weight := w |}]
  else signals.

Definition accumulate (acc : float * float) (s : Signal) : float * float :=
  ((fst acc + score s * weight s)%float, (snd acc + weight s)%float).






End Binary64.

(** The Value rule as the specification words it: the bonus for a price of
    0, the quotient otherwise. *)
Definition stated_value_view (S price : R) : R :=
  if Req_dec_T price 0 then S * 1000
  else S ^ 2 / (Std.log10 (price + 1) + 0.1).

Definition item_negative_price : json :=
  item_of "n" [("gpqa_score"%string, JNumber 0.6);
               ("input_price"%string, JNumber (- 0.9))].






Definition payload_a_b : json := JArray [item_a; item_b].

(** ** Tactics *)

(** Case analysis on the comparisons of reals met in the goal, innermost
    first; a branch whose comparison contradicts the arithmetic facts at
    hand is closed on the spot. *)
Ltac plain_real t :=
  lazymatch t with
  | context [Rle_dec _ _] => fail
  | context [Rlt_dec _ _] => fail
  | _ => idtac
  end.

Ltac case_R :=
  repeat match goal with
  | |- context [Rle_dec ?a ?b] =>
      plain_real a; plain_real b; destruct (Rle_dec a b); try lra
  | |- context [Rlt_dec ?a ?b] =>
      plain_real a; plain_real b; destruct (Rlt_dec a b); try lra
  end.

(** Evaluation of the loop body [build] on a concrete payload entry, one
    stage of the pipeline at a time; the operations on reals stay folded. *)
Ltac eval_build :=
  unfold IntelligenceEngine.build;
  cbv -[Rplus Rmult Rminus Rdiv Rinv Ropp IZR Rle_dec Rlt_dec ln
        R_sqrt.sqrt Rabs ComputeAggregates KnowledgeBase.Enrich
        RecalculateConfidence];
  case_R;
  cbv -[Rplus Rmult Rminus Rdiv Rinv Ropp IZR Rle_dec Rlt_dec ln
        R_sqrt.sqrt Rabs KnowledgeBase.Enrich RecalculateConfidence];
  case_R;
  cbv -[Rplus Rmult Rminus Rdiv Rinv Ropp IZR Rle_dec Rlt_dec ln
        R_sqrt.sqrt Rabs RecalculateConfidence];
  case_R;
  unfold RecalculateConfidence;
  cbv -[Rplus Rmult Rminus Rdiv Rinv Ropp IZR Rle_dec Rlt_dec ln
        R_sqrt.sqrt Rabs ComputeRankings];
  case_R;
  cbv -[Rplus Rmult Rminus Rdiv Rinv Ropp IZR Rle_dec Rlt_dec ln
        R_sqrt.sqrt Rabs];
  case_R.

Ltac unfold_cmp := unfold Std.clamp, Std.min, Std.abs, Rltb, Rleb in *.

Ltac case_abs :=
  unfold Std.abs, Rabs in *;
  repeat match goal with
  | |- context [Rcase_abs ?x] => destruct (Rcase_abs x)
  end.

(** * Properties *)

(** ** Comparisons, clamp and sums *)

Lemma Rltb_true (x y : R) : Rltb x y = true <-> x < y.
Proof. unfold Rltb. destruct (Rlt_dec x y); split; intros; try easy. Qed.

Lemma Rltb_false (x y : R) : Rltb x y = false <-> y <= x.
Proof.
  unfold Rltb. destruct (Rlt_dec x y); split; intros; try easy; lra.
Qed.

Lemma Rleb_true (x y : R) : Rleb x y = true <-> x <= y.
Proof. unfold Rleb. destruct (Rle_dec x y); split; intros; try easy. Qed.

Lemma Rleb_false (x y : R) : Rleb x y = false <-> y < x.
Proof.
  unfold Rleb. destruct (Rle_dec x y); split; intros; try easy; lra.
Qed.

Lemma clamp_bounds (v lo hi : R) : lo <= hi -> lo <= Std.clamp v lo hi <= hi.
Proof. intros H. unfold_cmp. case_R. Qed.

Lemma clamp_mono (u v lo hi : R) :
  lo <= hi -> u <= v -> Std.clamp u lo hi <= Std.clamp v lo hi.
Proof. intros H Huv. unfold_cmp. case_R. Qed.

Lemma clamp_id (v lo hi : R) : lo <= v <= hi -> Std.clamp v lo hi = v.
Proof. intros H. unfold_cmp. case_R. Qed.

Lemma clamp_above (v lo hi : R) : lo < hi -> lo < v -> lo < Std.clamp v lo hi.
Proof. intros H Hv. unfold_cmp. case_R. Qed.

(** ** Signal evidence model *)

Lemma fold_accumulate (l : list Signal) : forall a b,
  fold_left accumulate l (a, b)
  = (a + Rsum (map (fun s => score s * weight s) l),
     b + Rsum (map weight l)).
Proof.
  induction l as [|s l IH]; intros a b; simpl.
  - f_equal; lra.
  - unfold accumulate at 2. simpl. rewrite IH. f_equal; lra.
Qed.



Lemma AddSignal_signals (src : string) (sc w : R) (m : ModelEntity) :
  signals (AddSignal src sc w m)
  = if Rltb 0 sc
    then signals m ++ [{| source := src; score := Std.clamp sc 0 1;
                          weight := w |}]
    else signals m.
Proof.
  unfold AddSignal. replace 0.0 with 0 by lra. replace 1.0 with 1 by lra.
  destruct (Rltb 0 sc); reflexivity.
Qed.

Lemma AddSignal_retained (src : string) (sc w : R) (m : ModelEntity) :
  0 < w -> Forall retained (signals m) ->
  Forall retained (signals (AddSignal src sc w m)).
Proof.
  intros Hw Hm. rewrite AddSignal_signals.
  destruct (Rltb 0 sc) eqn:E; [|exact Hm].
  apply Rltb_true in E. apply Forall_app. split; [exact Hm|].
  constructor; [|constructor]. unfold retained; simpl.
  split; [|exact Hw]. unfold_cmp. case_R.
Qed.

Lemma add_signals_retained (calls : list SignalCall) : forall m,
  Forall (fun c => 0 < call_weight c) calls ->
  Forall retained (signals m) ->
  Forall retained (signals (add_signals calls m)).
Proof.
  induction calls as [|c calls IH]; intros m Hc Hm; simpl; [exact Hm|].
  inversion Hc; subst. apply IH; [assumption|].
  apply AddSignal_retained; assumption.
Qed.

Lemma ComputeAggregates_signals (m : ModelEntity) :
  signals (ComputeAggregates m) = signals m.
Proof. unfold ComputeAggregates. destruct (signals m) eqn:E; simpl; auto. Qed.

Lemma ComputeAggregates_final_score (m : ModelEntity) :
  final_score (ComputeAggregates m)
  = match signals m with
    | [] => 0
    | _ :: _ =>
        if Rltb 0 (Rsum (map weight (signals m)))
        then weighted_mean (signals m) else 0
    end.
Proof.
  unfold ComputeAggregates. destruct (signals m) as [|s l] eqn:E.
  - simpl. lra.
  - cbv zeta. unfold set_metrics, set_final_score. cbn [final_score].
    rewrite fold_accumulate. cbn [fst snd]. unfold weighted_mean.
    replace (0.0 + Rsum (map weight (s :: l)))
      with (Rsum (map weight (s :: l))) by lra.
    replace (0.0 + Rsum (map (fun s0 => score s0 * weight s0) (s :: l)))
      with (Rsum (map (fun s0 => score s0 * weight s0) (s :: l))) by lra.
    destruct (Rltb 0 _); [reflexivity | lra].
Qed.










(** ** Confidence estimator *)

Lemma inner_product_self (f : R -> R -> R) (l : list R) : forall init,
  Std.inner_product l l init Rplus f
  = init + Rsum (map (fun x => f x x) l).
Proof.
  unfold Std.inner_product.
  induction l as [|x l IH]; intros init; simpl; [lra|].
  rewrite IH. lra.
Qed.

Lemma sq_sum_closed (l : list R) (mean : R) :
  sq_sum l mean = Rsum (map (fun x => (x - mean) * (x - mean)) l).
Proof. unfold sq_sum. rewrite inner_product_self. lra. Qed.

Lemma sq_sum_nonneg (l : list R) (mean : R) : 0 <= sq_sum l mean.
Proof.
  rewrite sq_sum_closed. induction l as [|x l IH]; simpl; [lra|].
  pose proof (Rle_0_sqr (x - mean)) as H. unfold Rsqr in H. lra.
Qed.

Lemma sq_sum_below_count (l : list R) (mean : R) :
  0 < mean <= 1 -> Forall (fun x => 0 < x <= 1) l -> l <> [] ->
  sq_sum l mean < INR (List.length l).
Proof.
  intros Hm Hl Hne. rewrite sq_sum_closed.
  induction Hl as [|x l Hx Hl IH]; [congruence|].
  assert (Hx1 : (x - mean) * (x - mean) < 1) by nra.
  destruct l as [|y l'].
  - simpl. lra.
  - assert (Hne' : y :: l' <> []) by discriminate.
    specialize (IH Hne'). change (List.length (x :: y :: l')) with (S (List.length (y :: l'))).
    rewrite S_INR. simpl in *. lra.
Qed.

Lemma variance_nonneg (m : ModelEntity) : 0 <= variance m.
Proof.
  unfold variance. destruct (1 <? _)%nat; [|lra].
  apply sqrt_pos.
Qed.

Lemma variance_single (m : ModelEntity) :
  (List.length (signals m) <= 1)%nat -> variance m = 0.
Proof.
  intros H. unfold variance. rewrite length_map.
  destruct (Nat.ltb_spec 1 (List.length (signals m))); [lia | lra].
Qed.

Lemma variance_below_one (m : ModelEntity) :
  Forall retained (signals m) -> 0 < final_score m <= 1 -> variance m < 1.
Proof.
  intros Hr Hf. unfold variance. rewrite length_map.
  destruct (Nat.ltb_spec 1 (List.length (signals m))) as [Hn|Hn]; [|lra].
  assert (Hne : map score (signals m) <> [])
    by (destruct (signals m); simpl in *; [lia | discriminate]).
  assert (Hs : Forall (fun x => 0 < x <= 1) (map score (signals m))).
  { apply Forall_map. eapply Forall_impl; [|exact Hr].
    unfold retained. intros a Ha. lra. }
  pose proof (sq_sum_below_count _ _ Hf Hs Hne) as Hlt.
  rewrite length_map in Hlt.
  pose proof (sq_sum_nonneg (map score (signals m)) (final_score m)) as H0.
  assert (Hpos : 0 < INR (List.length (signals m))) by (apply lt_0_INR; lia).
  unfold Std.sqrt. rewrite <- sqrt_1. apply sqrt_lt_1_alt. split.
  - apply Rmult_le_pos; [assumption | left; apply Rinv_0_lt_compat; assumption].
  - apply Rmult_lt_reg_r with (r := INR (List.length (signals m))); [assumption|].
    unfold Rdiv. rewrite Rmult_assoc, Rinv_l by lra. lra.
Qed.

Lemma ComputeRankings_keeps (m : ModelEntity) :
  signals (ComputeRankings m) = signals m
  /\ final_score (ComputeRankings m) = final_score m
  /\ confidence_score (ComputeRankings m) = confidence_score m
  /\ confidence_reason (ComputeRankings m) = confidence_reason m
  /\ metrics (ComputeRankings m) = metrics m
  /\ modalities (ComputeRankings m) = modalities m
  /\ name (ComputeRankings m) = name m.
Proof. repeat split. Qed.

Lemma RecalculateConfidence_keeps (m : ModelEntity) :
  signals (RecalculateConfidence m) = signals m
  /\ final_score (RecalculateConfidence m) = final_score m
  /\ metrics (RecalculateConfidence m) = metrics m
  /\ modalities (RecalculateConfidence m) = modalities m
  /\ name (RecalculateConfidence m) = name m.
Proof.
  unfold RecalculateConfidence. cbn [signals set_confidence_reason].
  destruct (signals m) eqn:E; repeat split; simpl; auto.
Qed.

Lemma recency_term_nonneg (d : Z) : 0 <= recency_term d.
Proof.
  unfold recency_term. destruct (d <=? 30)%Z; [lra|].
  destruct (d <=? 90)%Z; lra.
Qed.

Lemma quality_term_lower (fs : R) : - 10 <= quality_term fs.
Proof. unfold quality_term, Rltb. case_R. Qed.

Lemma bonus_total_lower (n : nat) ms p fs :
  40 + INR n * 10 <= bonus_total n ms p fs.
Proof.
  unfold bonus_total.
  pose proof (recency_term_nonneg (last_updated_days_ago p)).
  pose proof (quality_term_lower fs).
  destruct (_ || _); destruct (is_enterprise_ready p); lra.
Qed.

Lemma RecalculateConfidence_confidence (m : ModelEntity) :
  confidence_score (RecalculateConfidence m)
  = match signals m with
    | [] => 10
    | _ :: _ => Std.clamp (raw_confidence m) 10 99
    end.
Proof.
  unfold RecalculateConfidence.
  rewrite (proj1 (proj2 (proj2 (ComputeRankings_keeps _)))).
  set (m0 := set_confidence_reason m "").
  change (signals m0) with (signals m).
  change (metrics m0) with (metrics m).
  change (final_score m0) with (final_score m).
  change (variance m0) with (variance m).
  change (is_versatile m0) with (is_versatile m).
  destruct (signals m) as [|s l] eqn:E.
  - simpl. lra.
  - cbn [confidence_score set_confidence_score].
    replace 10.0 with 10 by lra. replace 99.0 with 99 by lra.
    f_equal. unfold raw_confidence, bonus_total, recency_term, quality_term.
    unfold is_versatile. rewrite E.
    unfold Config.Weights.CONFIDENCE_BASE,
      Config.Weights.CONFIDENCE_SIGNAL_BONUS,
      Config.Weights.CONFIDENCE_RECENCY_BONUS,
      Config.Weights.CONFIDENCE_VERSATILE_BONUS,
      Config.Weights.CONFIDENCE_VARIANCE_PENALTY.
    destruct (last_updated_days_ago (metrics m) <=? 30)%Z;
    [|destruct (last_updated_days_ago (metrics m) <=? 90)%Z];
    destruct (_ || _); cbn [fst snd];
    destruct (is_enterprise_ready (metrics m));
    unfold Rltb; case_R.
Qed.

Lemma confidence_always_in_range (m : ModelEntity) :
  10 <= confidence_score (RecalculateConfidence m) <= 99.
Proof.
  rewrite RecalculateConfidence_confidence.
  destruct (signals m); [lra | apply clamp_bounds; lra].
Qed.

Lemma raw_confidence_above_floor (m : ModelEntity) :
  signals m <> [] -> Forall retained (signals m) -> 0 < final_score m <= 1 ->
  10 < raw_confidence m.
Proof.
  intros Hne Hr Hf. unfold raw_confidence.
  pose proof (bonus_total_lower (List.length (signals m)) (modalities m)
                (metrics m) (final_score m)) as Hb.
  destruct (le_lt_dec (List.length (signals m)) 1) as [H1|H2].
  - rewrite (variance_single m H1).
    assert (1 <= INR (List.length (signals m))).
    { destruct (signals m); [congruence|]. simpl List.length.
      rewrite S_INR. pose proof (pos_INR (List.length l)). lra. }
    lra.
  - pose proof (variance_below_one m Hr Hf) as Hv.
    assert (2 <= INR (List.length (signals m))).
    { change 2 with (INR 2). apply le_INR. lia. }
    lra.
Qed.


Lemma variance_is_population_std_dev (m : ModelEntity) :
  (2 <= List.length (signals m))%nat -> variance m = population_std_dev m.
Proof.
  intros Hn. unfold variance, population_std_dev. rewrite length_map.
  destruct (Nat.ltb_spec 1 (List.length (signals m))); [|lia].
  rewrite sq_sum_closed, map_map. reflexivity.
Qed.

(** C7. Two records with the same number of signals, the same aggregate
    score, the same metrics and the same modality set: the one whose signal
    scores have the larger population standard deviation around the
    aggregate never gets the higher confidence. *)
Theorem more_dispersion_never_more_confidence :
  forall a b : ModelEntity,
    List.length (signals a) = List.length (signals b) ->
    final_score a = final_score b ->
    metrics a = metrics b ->
    modalities a = modalities b ->
    population_std_dev a <= population_std_dev b ->
    confidence_score (RecalculateConfidence b)
    <= confidence_score (RecalculateConfidence a).
Proof.
  intros a b Hn Hf Hp Hms Hv.
  assert (Hvar : variance a <= variance b).
  { destruct (le_lt_dec (List.length (signals a)) 1) as [H1|H2].
    - rewrite (variance_single a H1), (variance_single b) by lia. lra.
    - rewrite !variance_is_population_std_dev by lia. exact Hv. }
  rewrite !RecalculateConfidence_confidence.
  destruct (signals a) as [|sa la] eqn:Ea;
    destruct (signals b) as [|sb lb] eqn:Eb;
    try discriminate; [lra|].
  apply clamp_mono; [lra|]. unfold raw_confidence.
  rewrite Ea, Eb, Hn, Hf, Hp, Hms. lra.
Qed.

Lemma more_dispersion_witness :
  population_std_dev agreeing <= population_std_dev disagreeing
  /\ confidence_score (RecalculateConfidence disagreeing)
     <= confidence_score (RecalculateConfidence agreeing).
Proof.
  assert (H : population_std_dev agreeing <= population_std_dev disagreeing).
  { unfold population_std_dev. apply sqrt_le_1_alt. simpl. lra. }
  split; [exact H|].
  apply (more_dispersion_never_more_confidence agreeing disagreeing);
    [reflexivity | reflexivity | reflexivity | reflexivity | exact H].
Defined.





(** ** Ranking calculator *)

Lemma ln_10_pos : 0 < ln 10.
Proof. rewrite <- ln_1. apply ln_increasing; lra. Qed.

Lemma log10_pos (x : R) : 1 < x -> 0 < Std.log10 x.
Proof.
  intros Hx. unfold Std.log10. apply Rdiv_lt_0_compat; [|apply ln_10_pos].
  rewrite <- ln_1. apply ln_increasing; lra.
Qed.

Lemma value_of_free (m : ModelEntity) :
  price_input_1m (metrics m) <= 0 ->
  value (ranks (ComputeRankings m)) = final_score m * 1000.
Proof.
  intros Hp. unfold ComputeRankings. cbn [ranks set_ranks value].
  replace 0.0 with 0 by lra. apply Rleb_true in Hp. rewrite Hp. lra.
Qed.

Lemma value_of_priced (m : ModelEntity) :
  0 < price_input_1m (metrics m) ->
  value (ranks (ComputeRankings m))
  = final_score m ^ 2 / (Std.log10 (price_input_1m (metrics m) + 1) + 0.1).
Proof.
  intros Hp. unfold ComputeRankings. cbn [ranks set_ranks value].
  replace 0.0 with 0 by lra. apply Rleb_false in Hp. rewrite Hp.
  replace 1.0 with 1 by lra. f_equal. ring.
Qed.

Lemma value_of_priced_below_ten (q : ModelEntity) :
  0 <= final_score q <= 1 -> 0 < price_input_1m (metrics q) ->
  value (ranks (ComputeRankings q)) < 10.
Proof.
  intros Hs Hp. rewrite value_of_priced by assumption.
  pose proof (log10_pos (price_input_1m (metrics q) + 1) ltac:(lra)) as Hl.
  set (d := Std.log10 (price_input_1m (metrics q) + 1) + 0.1) in *.
  assert (Hd : 0.1 < d) by (subst d; lra).
  apply Rmult_lt_reg_r with (r := d); [lra|].
  unfold Rdiv. rewrite Rmult_assoc, Rinv_l by lra. nra.
Qed.

(** C5 (as amended). For every record with aggregate score S: when the
    price is 0 or negative the Value is S*1000, when it is positive the
    Value is S^2 / (log10(price+1) + 0.1); a free record with aggregate 0.6
    has Value exactly 600, above the Value of every record with a positive
    price and an aggregate in [0,1]. *)
Theorem value_view_free_and_priced :
  forall m : ModelEntity,
    let v := value (ranks (ComputeRankings m)) in
    (price_input_1m (metrics m) <= 0 -> v = final_score m * 1000)
    /\ (0 < price_input_1m (metrics m) ->
        v = final_score m ^ 2
            / (Std.log10 (price_input_1m (metrics m) + 1) + 0.1))
    /\ (price_input_1m (metrics m) <= 0 -> final_score m = 0.6 ->
        v = 600
        /\ forall q : ModelEntity,
             0 <= final_score q <= 1 -> 0 < price_input_1m (metrics q) ->
             value (ranks (ComputeRankings q)) < v).
Proof.
  intros m v. subst v. split; [|split].
  - intros H0. apply value_of_free. exact H0.
  - intros Hpos. apply value_of_priced. exact Hpos.
  - intros H0 Hs. rewrite value_of_free by exact H0. rewrite Hs.
    split; [lra|]. intros q Hq Hpq.
    pose proof (value_of_priced_below_ten q Hq Hpq). lra.
Qed.

(** C6. The image score is the generation formula
    (0.5*S + 0.3*creative + 0.1*speedNorm + 0.1*confidence/100)*100 when
    Image is in the modality set and exactly 0 otherwise; the video score is
    the same formula when Video is in the modality set and 0.3 times it
    otherwise. *)
Theorem image_zeroed_video_scaled :
  forall m : ModelEntity,
    let r := ranks (ComputeRankings m) in
    image r = (if has_image (modalities m) then generation_score m else 0)
    /\ video r = (if has_video (modalities m)
                  then generation_score m else 0.3 * generation_score m).
Proof.
  intros m r. subst r. unfold ComputeRankings, generation_score.
  cbn [ranks set_ranks image video]. unfold ModSet.count.
  replace 150.0 with 150 by lra. replace 1.0 with 1 by lra.
  replace 0.0 with 0 by lra.
  destruct (has_image (modalities m)); destruct (has_video (modalities m));
    cbn [Nat.eqb]; split; lra.
Qed.

Lemma value_view_witness :
  price_input_1m (metrics free_sample) <= 0
  /\ value (ranks (ComputeRankings free_sample)) = 600.
Proof.
  assert (H : price_input_1m (metrics free_sample) <= 0) by (simpl; lra).
  split; [exact H|].
  destruct (value_view_free_and_priced free_sample) as (_ & _ & H3).
  apply H3; [exact H | reflexivity].
Defined.

(** ** Ingestion loop *)

Lemma weighted_mean_single (s : Signal) :
  0 < weight s -> weighted_mean [s] = score s.
Proof. intros Hw. unfold weighted_mean. simpl. field. lra. Qed.

Lemma attached_cases (stod : string -> option R) (item : json) :
  attached_signals stod item = []
  \/ exists s, attached_signals stod item = [s] /\ retained s.
Proof.
  unfold attached_signals, positive_unit.
  destruct (Utils.TryGetDouble stod item "gpqa_score") as [sc|].
  - destruct (Rltb 0 sc) eqn:E0; destruct (Rleb sc 1) eqn:E1; simpl; auto.
    right. eexists. split; [reflexivity|].
    apply Rltb_true in E0. apply Rleb_true in E1.
    unfold retained; simpl. lra.
  - destruct (Utils.TryGetDouble stod item "average_score") as [sc|]; auto.
    destruct (Rltb 0 sc) eqn:E0; destruct (Rleb sc 1) eqn:E1; simpl; auto.
    right. eexists. split; [reflexivity|].
    apply Rltb_true in E0. apply Rleb_true in E1.
    unfold retained; simpl. lra.
Qed.

Lemma guarded_AddSignal (src : string) (sc w : R) (m : ModelEntity) :
  signals (if Rleb 0.0 sc && Rleb sc 1.0 then AddSignal src sc w m else m)
  = signals m
    ++ match positive_unit (Some sc) with
       | Some x => [{| source := src; score := x; weight := w |}]
       | None => []
       end.
Proof.
  unfold positive_unit. replace 0.0 with 0 by lra. replace 1.0 with 1 by lra.
  destruct (Rleb 0 sc) eqn:E0; destruct (Rleb sc 1) eqn:E1;
    destruct (Rltb 0 sc) eqn:E2; cbn [andb];
    rewrite ?AddSignal_signals, ?E2, ?app_nil_r; try reflexivity.
  - apply Rleb_true in E0, E1. apply Rltb_true in E2.
    rewrite clamp_id by lra. reflexivity.
  - apply Rleb_false in E0. apply Rltb_true in E2. lra.
Qed.

Lemma add_item_signals_signals (stod : string -> option R) (item : json)
    (m : ModelEntity) :
  signals (IntelligenceEngine.add_item_signals stod item m)
  = signals m ++ attached_signals stod item.
Proof.
  unfold IntelligenceEngine.add_item_signals, attached_signals.
  destruct (Utils.TryGetDouble stod item "gpqa_score") as [sc|].
  - apply guarded_AddSignal.
  - destruct (Utils.TryGetDouble stod item "average_score") as [sc|].
    + apply guarded_AddSignal.
    + rewrite app_nil_r. reflexivity.
Qed.

Lemma AddSignal_name (src : string) (sc w : R) (m : ModelEntity) :
  name (AddSignal src sc w m) = name m.
Proof. unfold AddSignal. destruct (Rltb 0.0 sc); reflexivity. Qed.

Lemma add_item_signals_name (stod : string -> option R) (item : json)
    (m : ModelEntity) :
  name (IntelligenceEngine.add_item_signals stod item m) = name m.
Proof.
  unfold IntelligenceEngine.add_item_signals.
  destruct (Utils.TryGetDouble stod item "gpqa_score") as [sc|].
  - destruct (_ && _); [apply AddSignal_name | reflexivity].
  - destruct (Utils.TryGetDouble stod item "average_score") as [sc|];
      [|reflexivity].
    destruct (_ && _); [apply AddSignal_name | reflexivity].
Qed.

Lemma ComputeAggregates_name (m : ModelEntity) :
  name (ComputeAggregates m) = name m.
Proof. unfold ComputeAggregates. destruct (signals m); reflexivity. Qed.

(** [Enrich] replaces the modality set and the metrics and nothing else; the
    recency tier it finds in the metrics is carried over unchanged. *)
Lemma Enrich_shape (stod : string -> option R) (m m' : ModelEntity)
    (item : json) :
  KnowledgeBase.Enrich stod m item = Some m' ->
  exists ms p,
    m' = enriched_with m ms p
    /\ recency_bonus p = recency_bonus (metrics m)
    /\ context_window p
       = match Utils.TryGetDouble stod item "context_length" with
         | Some x => Std.min 1.0 (x / 200000.0)
         | None =>
             if Utils.found (Utils.ToLower (name m)) "128k"
                || Utils.found (Utils.ToLower (name m)) "200k"
             then 0.8 else 0.5
         end.
Proof.
  unfold KnowledgeBase.Enrich.
  destruct (KnowledgeBase.detect_modalities _ _ _) as [ms|]; [|discriminate].
  intros H. injection H as <-. eexists; eexists. split; [reflexivity|].
  split; reflexivity.
Qed.

Lemma build_inv (stod : string -> option R) (nm : string) (item : json)
    (r : ModelEntity) :
  IntelligenceEngine.build stod nm item = Some r ->
  exists org ms p,
    r = RecalculateConfidence
          (enriched_with
             (ComputeAggregates
                (IntelligenceEngine.add_item_signals stod item
                   (new_ModelEntity nm org)))
             ms p).
Proof.
  unfold IntelligenceEngine.build.
  destruct (Json.value_string item "organization" "Unknown") as [org|];
    [|discriminate].
  destruct (KnowledgeBase.Enrich stod _ item) as [m'|] eqn:E; [|discriminate].
  intros H. injection H as <-.
  destruct (Enrich_shape _ _ _ _ E) as (ms & p & -> & _).
  exists org, ms, p. reflexivity.
Qed.

Lemma build_facts (stod : string -> option R) (nm : string) (item : json)
    (r : ModelEntity) :
  IntelligenceEngine.build stod nm item = Some r ->
  name r = nm
  /\ signals r = attached_signals stod item
  /\ final_score r
     = match attached_signals stod item with
       | [] => 0
       | s :: _ => score s
       end.
Proof.
  intros H. destruct (build_inv _ _ _ _ H) as (org & ms & p & ->).
  destruct (RecalculateConfidence_keeps
    (enriched_with
       (ComputeAggregates
          (IntelligenceEngine.add_item_signals stod item
             (new_ModelEntity nm org))) ms p)) as (-> & -> & _ & _ & ->).
  unfold enriched_with. cbn [name signals final_score set_metrics set_modalities].
  rewrite ComputeAggregates_name, add_item_signals_name.
  rewrite ComputeAggregates_signals, add_item_signals_signals.
  cbn [signals new_ModelEntity app]. repeat split.
  rewrite ComputeAggregates_final_score, add_item_signals_signals.
  cbn [signals new_ModelEntity app].
  destruct (attached_cases stod item) as [->|(s & -> & Hs0 & Hw)];
    [reflexivity|].
  assert (Hpos : Rltb 0 (Rsum (map weight [s])) = true)
    by (apply Rltb_true; simpl; lra).
  rewrite Hpos. apply weighted_mean_single. exact Hw.
Qed.

Lemma NoDup_snoc (A : Type) (l : list A) (x : A) :
  NoDup l -> ~ In x l -> NoDup (l ++ [x]).
Proof.
  induction 1 as [|y l Hy Hl IH]; intros Hx; simpl.
  - constructor; [intros [] | constructor].
  - constructor.
    + intros Hin. apply in_app_or in Hin. destruct Hin as [Hin|[->|[]]].
      * contradiction.
      * apply Hx. left. reflexivity.
    + apply IH. intros Hin. apply Hx. right. exact Hin.
Qed.

Section Loop.
Import IntelligenceEngine.
Variable stod : string -> option R.

(** What one iteration does to the registry: nothing, or one push of a
    freshly built record with a positive aggregate and a new name. *)
Lemma process_item_registry (st : State) (item : json) :
  registry (process_item stod st item) = registry st
  \/ exists nm r,
       build stod nm item = Some r
       /\ 0 < final_score r
       /\ exists_in (registry st) nm = false
       /\ registry (process_item stod st item) = registry st ++ [r].
Proof.
  unfold process_item.
  destruct (negb (Json.contains item "name") || _ || _); [left; reflexivity|].
  destruct (Json.get_string (Json.at_key item "name")) as [nm|];
    [|left; reflexivity].
  destruct (String.eqb nm ""); [left; reflexivity|].
  destruct (exists_in (registry st) nm) eqn:Ex; [left; reflexivity|].
  destruct (build stod nm item) as [r|] eqn:Eb; [|left; reflexivity].
  destruct (Rltb 0 (final_score r)) eqn:Ef; [|left; reflexivity].
  right. exists nm, r. apply Rltb_true in Ef. repeat split; assumption.
Qed.

Lemma run_loop_invariant (P : ModelEntity -> Prop) :
  (forall nm item r,
      build stod nm item = Some r -> 0 < final_score r -> P r) ->
  forall data st,
    Forall P (registry st) -> Forall P (registry (run_loop stod st data)).
Proof.
  intros Hstep. unfold run_loop.
  induction data as [|item data IH]; intros st Hst; simpl; [exact Hst|].
  apply IH.
  destruct (process_item_registry st item)
    as [->|(nm & r & Hb & Hf & _ & ->)]; [exact Hst|].
  apply Forall_app. split; [exact Hst|].
  constructor; [|constructor]. eapply Hstep; eassumption.
Qed.

Lemma Run_invariant (P : ModelEntity -> Prop) :
  (forall nm item r,
      build stod nm item = Some r -> 0 < final_score r -> P r) ->
  forall data, Forall P (registry (Run stod initial data)).
Proof.
  intros Hstep data. destruct data; try constructor.
  apply run_loop_invariant; [exact Hstep | constructor].
Qed.

Lemma exists_in_false (reg : list ModelEntity) (nm : string) :
  exists_in reg nm = false -> ~ In nm (map name reg).
Proof.
  unfold exists_in. intros H Hin. apply in_map_iff in Hin.
  destruct Hin as (r & Hr & Hin).
  assert (Ht : existsb (fun r0 => String.eqb (name r0) nm) reg = true).
  { apply existsb_exists. exists r. split; [exact Hin|].
    apply String.eqb_eq. exact Hr. }
  congruence.
Qed.

Lemma run_loop_names_unique : forall data st,
  NoDup (map name (registry st)) ->
  NoDup (map name (registry (run_loop stod st data))).
Proof.
  unfold run_loop.
  induction data as [|item data IH]; intros st Hst; simpl; [exact Hst|].
  apply IH.
  destruct (process_item_registry st item)
    as [->|(nm & r & Hb & _ & Hex & ->)]; [exact Hst|].
  destruct (build_facts _ _ _ _ Hb) as (Hn & _).
  rewrite map_app. simpl. rewrite Hn.
  apply NoDup_snoc; [exact Hst | apply exists_in_false; exact Hex].
Qed.

Lemma built_positive_has_signal (nm : string) (item : json)
    (r : ModelEntity) :
  build stod nm item = Some r ->
  (0 < final_score r <-> signals r <> [])
  /\ (List.length (signals r) <= 1)%nat
  /\ Forall retained (signals r).
Proof.
  intros Hb. destruct (build_facts _ _ _ _ Hb) as (_ & -> & ->).
  destruct (attached_cases stod item) as [->|(s & -> & Hs)].
  - repeat split; simpl; try constructor; try lia; try congruence.
    intros H; lra.
  - repeat split; simpl; try lia; try discriminate.
    + intros _. apply Hs.
    + constructor; [exact Hs | constructor].
Qed.

End Loop.

Lemma AddSignal_metrics (src : string) (sc w : R) (m : ModelEntity) :
  metrics (AddSignal src sc w m) = metrics m.
Proof. unfold AddSignal. destruct (Rltb 0.0 sc); reflexivity. Qed.

Lemma add_item_signals_metrics (stod : string -> option R) (item : json)
    (m : ModelEntity) :
  metrics (IntelligenceEngine.add_item_signals stod item m) = metrics m.
Proof.
  unfold IntelligenceEngine.add_item_signals.
  destruct (Utils.TryGetDouble stod item "gpqa_score") as [sc|].
  - destruct (_ && _); [apply AddSignal_metrics | reflexivity].
  - destruct (Utils.TryGetDouble stod item "average_score") as [sc|];
      [|reflexivity].
    destruct (_ && _); [apply AddSignal_metrics | reflexivity].
Qed.

(** The loop runs [ComputeAggregates] before [Enrich] has set
    [last_updated_days_ago], so the recency tier is derived from the initial
    0 days and every built record carries tier 3. *)
Lemma built_recency_tier (stod : string -> option R) (nm : string)
    (item : json) (r : ModelEntity) :
  IntelligenceEngine.build stod nm item = Some r ->
  recency_bonus (metrics r) = 3%Z.
Proof.
  unfold IntelligenceEngine.build.
  destruct (Json.value_string item "organization" "Unknown") as [org|];
    [|discriminate].
  destruct (KnowledgeBase.Enrich stod _ item) as [m'|] eqn:E; [|discriminate].
  intros H. injection H as <-.
  destruct (Enrich_shape _ _ _ _ E) as (ms & p & -> & Hrec & _).
  rewrite (proj1 (proj2 (proj2 (RecalculateConfidence_keeps _)))).
  cbn [metrics enriched_with set_metrics]. rewrite Hrec.
  unfold ComputeAggregates.
  destruct (signals (IntelligenceEngine.add_item_signals stod item
                       (new_ModelEntity nm org)));
    cbn [metrics set_metrics set_final_score set_confidence_reason
         recency_bonus set_recency_bonus last_updated_days_ago];
    rewrite add_item_signals_metrics; reflexivity.
Qed.

(** On the records the loop builds, whose weights are the constants 0.50
    and 0.40, the floor property holds without any side condition. *)
Lemma built_confidence_floor_iff_no_signal (stod : string -> option R)
    (nm : string) (item : json) (r : ModelEntity) :
  IntelligenceEngine.build stod nm item = Some r ->
  10 <= confidence_score r <= 99
  /\ (confidence_score r = 10 <-> signals r = []).
Proof.
  intros Hb.
  destruct (built_positive_has_signal stod nm item r Hb) as (Hpos & _ & Hr).
  destruct (build_facts _ _ _ _ Hb) as (_ & Hsig & Hfs).
  destruct (build_inv _ _ _ _ Hb) as (org & ms & p & ->).
  set (e := enriched_with _ ms p) in *.
  destruct (RecalculateConfidence_keeps e) as (Hs & Hf & _).
  split; [apply confidence_always_in_range|].
  rewrite RecalculateConfidence_confidence. rewrite Hs in *. rewrite Hf in *.
  destruct (signals e) as [|s l] eqn:E; [split; reflexivity|].
  split; [|discriminate]. intros H10. exfalso.
  assert (Hne : s :: l <> []) by discriminate.
  assert (Hfin : 0 < final_score e <= 1).
  { split; [apply Hpos; exact Hne|].
    rewrite Hfs, <- Hsig. inversion Hr as [|? ? Hs0 _]; subst.
    unfold retained in Hs0. lra. }
  assert (Hraw : 10 < raw_confidence e).
  { apply raw_confidence_above_floor; rewrite ?E; assumption. }
  pose proof (clamp_above (raw_confidence e) 10 99 ltac:(lra) Hraw). lra.
Qed.

Lemma named_item_passes_validation (item : json) (nm : string) :
  Json.find item "name" = Some (JString nm) ->
  negb (Json.contains item "name")
  || Json.is_null (Json.at_key item "name")
  || negb (Json.is_string (Json.at_key item "name")) = false
  /\ Json.get_string (Json.at_key item "name") = Some nm.
Proof.
  intros H. unfold Json.contains, Json.at_key. rewrite H. split; reflexivity.
Qed.

Lemma built_confidence_floor (stod : string -> option R) (nm : string)
    (item : json) (r : ModelEntity) :
  IntelligenceEngine.build stod nm item = Some r ->
  signals r = [] -> confidence_score r = 10.
Proof.
  intros Hb Hs. destruct (build_inv _ _ _ _ Hb) as (org & ms & p & ->).
  rewrite RecalculateConfidence_confidence.
  rewrite (proj1 (RecalculateConfidence_keeps _)) in Hs. rewrite Hs.
  reflexivity.
Qed.

(** C8. A record that retained no signal leaves the loop body with
    aggregate 0 and confidence 10; a validated, not yet registered entry is
    pushed into the registry exactly when its aggregate is strictly
    positive; and every record of the registry after a run has a positive
    aggregate and at least one signal. *)
Theorem zero_signal_record_never_persisted :
  forall stod : string -> option R,
    (forall nm item r,
        IntelligenceEngine.build stod nm item = Some r ->
        signals r = [] ->
        final_score r = 0 /\ confidence_score r = 10)
    /\ (forall st item nm r,
          Json.find item "name" = Some (JString nm) ->
          nm <> ""%string ->
          IntelligenceEngine.exists_in (IntelligenceEngine.registry st) nm
          = false ->
          IntelligenceEngine.build stod nm item = Some r ->
          (0 < final_score r ->
           IntelligenceEngine.registry
             (IntelligenceEngine.process_item stod st item)
           = IntelligenceEngine.registry st ++ [r])
          /\ (final_score r <= 0 ->
              IntelligenceEngine.registry
                (IntelligenceEngine.process_item stod st item)
              = IntelligenceEngine.registry st))
    /\ (forall data,
          Forall (fun r => 0 < final_score r /\ signals r <> [])
            (IntelligenceEngine.registry
               (IntelligenceEngine.Run stod IntelligenceEngine.initial data))).
Proof.
  intros stod. split; [|split].
  - intros nm item r Hb Hs. split.
    + destruct (build_facts _ _ _ _ Hb) as (_ & Hsig & ->).
      rewrite <- Hsig, Hs. reflexivity.
    + eapply built_confidence_floor; eassumption.
  - intros st item nm r Hfind Hnm Hex Hb.
    destruct (named_item_passes_validation item nm Hfind) as (Hv & Hg).
    apply String.eqb_neq in Hnm.
    unfold IntelligenceEngine.process_item. rewrite Hv, Hg, Hnm, Hex, Hb.
    split; intros Hf.
    + apply Rltb_true in Hf. rewrite Hf. reflexivity.
    + apply Rltb_false in Hf. rewrite Hf. reflexivity.
  - intros data. apply Run_invariant. intros nm item r Hb Hf.
    split; [exact Hf|].
    apply (proj1 (built_positive_has_signal stod nm item r Hb)). exact Hf.
Qed.

(** C9. An entry whose name is already in the registry leaves the whole
    engine state as it was: the registry is untouched (the first record of
    that name stays) and neither counter moves.  An entry without a name, or
    whose name is not a string or is the empty string, is skipped: the
    registry and the processed counter stay and the skipped counter grows by
    one.  The names of the registry after a run are pairwise distinct. *)
Theorem duplicate_name_skipped_without_count :
  forall (stod : string -> option R) (st : IntelligenceEngine.State)
         (item : json),
    (forall nm,
        Json.find item "name" = Some (JString nm) ->
        nm <> ""%string ->
        IntelligenceEngine.exists_in (IntelligenceEngine.registry st) nm
        = true ->
        IntelligenceEngine.process_item stod st item = st)
    /\ (Json.find item "name" = None
        \/ (exists v, Json.find item "name" = Some v
                      /\ Json.is_string v = false)
        \/ Json.find item "name" = Some (JString "") ->
        let st' := IntelligenceEngine.process_item stod st item in
        IntelligenceEngine.registry st' = IntelligenceEngine.registry st
        /\ IntelligenceEngine.processed st' = IntelligenceEngine.processed st
        /\ IntelligenceEngine.skipped st'
           = (IntelligenceEngine.skipped st + 1)%Z)
    /\ (forall data,
          NoDup (map name
                   (IntelligenceEngine.registry
                      (IntelligenceEngine.Run stod IntelligenceEngine.initial
                         (JArray data))))).
Proof.
  intros stod st item. split; [|split].
  - intros nm Hfind Hnm Hex.
    destruct (named_item_passes_validation item nm Hfind) as (Hv & Hg).
    apply String.eqb_neq in Hnm.
    unfold IntelligenceEngine.process_item. rewrite Hv, Hg, Hnm, Hex.
    reflexivity.
  - intros Hbad st'. subst st'. unfold IntelligenceEngine.process_item.
    unfold Json.contains, Json.at_key.
    destruct Hbad as [H|[(v & H & Hv)|H]]; rewrite H.
    + repeat split.
    + destruct v; try discriminate; repeat split.
    + repeat split.
  - intros data. simpl. apply run_loop_names_unique. constructor.
Qed.

Lemma reason_without_consensus (m : ModelEntity) :
  (List.length (signals m) < 3)%nat ->
  Utils.found (confidence_reason (RecalculateConfidence m)) "High Consensus"
  = false.
Proof.
  intros Hn. unfold RecalculateConfidence.
  rewrite (proj1 (proj2 (proj2 (proj2 (ComputeRankings_keeps _))))).
  set (m0 := set_confidence_reason m "").
  change (signals m0) with (signals m).
  change (metrics m0) with (metrics m).
  change (confidence_reason m0) with ""%string.
  apply Nat.leb_gt in Hn.
  destruct (signals m) as [|s l] eqn:E; [reflexivity|].
  rewrite Hn. cbn [confidence_reason set_confidence_score set_confidence_reason].
  destruct (last_updated_days_ago (metrics m) <=? 30)%Z;
    [|destruct (last_updated_days_ago (metrics m) <=? 90)%Z];
    destruct (is_versatile m0); reflexivity.
Qed.

(** C10 (as amended). The loop attaches to a fresh record the signal list
    [attached_signals]: one GPQA signal of weight 0.50 when [gpqa_score]
    parses to a value in (0,1]; one average-score signal of weight 0.40
    when [gpqa_score] does not parse and [average_score] parses to a value
    in (0,1]; nothing otherwise.  That list never has more than one
    element, and every record of the registry after a run has exactly one
    signal, a zero dispersion penalty and a rationale without
    "High Consensus". *)
Theorem ingestion_attaches_at_most_one_signal :
  forall stod : string -> option R,
    (forall item nm org,
        signals (IntelligenceEngine.add_item_signals stod item
                   (new_ModelEntity nm org))
        = attached_signals stod item
        /\ (List.length (attached_signals stod item) <= 1)%nat)
    /\ (forall data,
          Forall
            (fun r =>
               List.length (signals r) = 1%nat
               /\ variance r * Config.Weights.CONFIDENCE_VARIANCE_PENALTY = 0
               /\ Utils.found (confidence_reason r) "High Consensus" = false)
            (IntelligenceEngine.registry
               (IntelligenceEngine.Run stod IntelligenceEngine.initial data))).
Proof.
  intros stod. split.
  - intros item nm org. rewrite add_item_signals_signals. split; [reflexivity|].
    destruct (attached_cases stod item) as [->|(s & -> & _)]; simpl; lia.
  - intros data. apply Run_invariant. intros nm item r Hb Hf.
    destruct (built_positive_has_signal stod nm item r Hb) as (Hpos & Hlen & _).
    apply Hpos in Hf.
    assert (H1 : List.length (signals r) = 1%nat)
      by (destruct (signals r) as [|s [|s' l]]; simpl in *; try congruence; lia).
    split; [exact H1|]. split.
    + rewrite variance_single by lia. lra.
    + destruct (build_inv _ _ _ _ Hb) as (org & ms & p & ->).
      apply reason_without_consensus.
      rewrite (proj1 (RecalculateConfidence_keeps _)) in H1. lia.
Qed.

(** C10, the claim as stated fails: a [gpqa_score] of 0 is in [0,1] and yet
    no signal is attached, and a [gpqa_score] of 1.5 next to an
    [average_score] of 0.7 attaches nothing either, where the stated rule
    gives one signal in both cases. *)
Lemma stated_ingestion_rule_fails :
  let attached item nm :=
    signals (IntelligenceEngine.add_item_signals no_stod item
               (new_ModelEntity nm "Unknown")) in
  attached item_zero "z"%string = []
  /\ Claimed.item_signals no_stod item_zero
     = [{| source := "ZeroEval GPQA"; score := 0; weight := 0.50 |}]
  /\ attached item_zero "z"%string <> Claimed.item_signals no_stod item_zero
  /\ attached item_out_of_range "o"%string = []
  /\ Claimed.item_signals no_stod item_out_of_range
     = [{| source := "Avg Score"; score := 0.7; weight := 0.40 |}]
  /\ attached item_out_of_range "o"%string
     <> Claimed.item_signals no_stod item_out_of_range.
Proof.
  cbv beta zeta. rewrite !add_item_signals_signals.
  unfold attached_signals, Claimed.item_signals.
  change (Utils.TryGetDouble no_stod item_zero "gpqa_score") with (Some 0).
  change (Utils.TryGetDouble no_stod item_out_of_range "gpqa_score")
    with (Some 1.5).
  change (Utils.TryGetDouble no_stod item_out_of_range "average_score")
    with (Some 0.7).
  unfold positive_unit, Claimed.in_unit, Rltb, Rleb.
  cbn [andb app signals new_ModelEntity].
  case_R. cbn [andb]. repeat split; try reflexivity; discriminate.
Qed.

(** ** The pipeline on sample payload entries *)

Lemma build_item_a :
  exists r,
    IntelligenceEngine.build no_stod "a" item_a = Some r
    /\ overall (ranks r) = 53.5
    /\ recency_bonus (metrics r) = 3%Z
    /\ last_updated_days_ago (metrics r) = 180%Z.
Proof.
  eexists. split; [eval_build; reflexivity|].
  cbn [ranks overall metrics recency_bonus last_updated_days_ago].
  split; [lra | split; reflexivity].
Qed.

Lemma build_item_b :
  exists r,
    IntelligenceEngine.build no_stod "b" item_b = Some r
    /\ overall (ranks r) = 53.707
    /\ recency_bonus (metrics r) = 3%Z
    /\ last_updated_days_ago (metrics r) = 180%Z.
Proof.
  eexists. split; [eval_build; reflexivity|].
  cbn [ranks overall metrics recency_bonus last_updated_days_ago].
  split; [lra | split; reflexivity].
Qed.

Lemma build_item_ctx200k :
  exists r,
    IntelligenceEngine.build no_stod "m" item_ctx200k = Some r
    /\ coding (ranks r) = 41.50005
    /\ coding_score (metrics r) = 0.425
    /\ reasoning_score (metrics r) = 0.5
    /\ context_window (metrics r) = 1
    /\ confidence_score r = 60.
Proof.
  eexists. split; [eval_build; reflexivity|].
  cbn [ranks coding metrics coding_score reasoning_score context_window
       confidence_score].
  repeat split; lra.
Qed.

Lemma build_item_zero :
  exists r,
    IntelligenceEngine.build no_stod "z" item_zero = Some r
    /\ signals r = [] /\ final_score r = 0.
Proof.
  eexists. split; [eval_build; reflexivity|].
  cbn [signals final_score]. split; [reflexivity | lra].
Qed.

(** C5, the claim as stated fails: a payload entry with a negative
    ["input_price"] yields a record whose price is not 0 and whose Value is
    the free one, 600, where the stated formula for a price other than 0
    gives -0.4. *)
Lemma negative_price_takes_free_branch :
  exists r,
    IntelligenceEngine.build no_stod "n" item_negative_price = Some r
    /\ final_score r = 0.6
    /\ price_input_1m (metrics r) = - 0.9
    /\ value (ranks r) = 600
    /\ stated_value_view (final_score r) (price_input_1m (metrics r)) = - 0.4.
Proof.
  eexists. split; [eval_build; reflexivity|].
  cbn [ranks value metrics price_input_1m final_score].
  split; [lra|]. split; [lra|]. split; [lra|].
  unfold stated_value_view.
  match goal with
  | |- context [Req_dec_T ?a ?b] => destruct (Req_dec_T a b) as [E|_]; [lra|]
  end.
  unfold Std.log10.
  match goal with
  | |- context [ln ?x] =>
      lazymatch x with
      | 10 => fail
      | _ => replace x with (/ 10) by lra
      end
  end.
  rewrite ln_Rinv by lra. pose proof ln_10_pos as Hln.
  replace (- ln 10 / ln 10) with (- 1) by (field; lra).
  replace (- 1 + 0.1) with (- (9 / 10)) by lra.
  unfold Rdiv at 1.
  replace (/ - (9 / 10)) with (- (10 / 9)) by (field; lra).
  cbn [pow]. lra.
Qed.

(** ** Ordering and tie-break *)

Lemma csv_orders_by_score_outside_band (a b : ModelEntity) (sa sb : R) :
  Config.Weights.TIE_THRESHOLD < sa - sb ->
  DataExporter.csv_tieBreakerSort a b sa sb = true
  /\ DataExporter.csv_tieBreakerSort b a sb sa = false.
Proof.
  unfold Config.Weights.TIE_THRESHOLD. intros H.
  unfold DataExporter.csv_tieBreakerSort, Config.Weights.TIE_THRESHOLD.
  unfold Rleb, Rltb. case_abs; case_R; split; reflexivity.
Qed.

(** The CSV and the legacy text comparators are the same relation: scaling
    both scores and the threshold by 100 changes nothing. *)
Lemma legacy_agrees_with_csv (a b : ModelEntity) :
  DataExporter.legacy_less a b = DataExporter.csv_performance_less a b.
Proof.
  unfold DataExporter.legacy_less, DataExporter.csv_performance_less,
    DataExporter.legacy_tieBreakerSort, DataExporter.csv_tieBreakerSort,
    Config.Weights.TIE_THRESHOLD, Rleb, Rltb.
  case_abs; case_R; try reflexivity; exfalso; lra.
Qed.

Lemma dashboard_band_decides_by_recency (k : DashboardView.RankKey)
    (a b : ModelEntity) :
  Rabs (DashboardView.rank_at (ToJSON_ranks a) k
        - DashboardView.rank_at (ToJSON_ranks b) k) <= 0.5 ->
  DashboardView.compare DashboardView.default_mode k a b
  = IZR (recency_bonus (metrics b) - recency_bonus (metrics a)).
Proof.
  intros H. unfold DashboardView.compare, Std.abs.
  apply Rleb_true in H. rewrite H. reflexivity.
Qed.

(** Inside the band between the two cut-offs the CSV export and the
    dashboard put the same two records in opposite orders as soon as the
    lower-scored one is the more recent. *)
Lemma exports_order_oppositely (a b : ModelEntity) :
  0 <= overall (ranks b) -> overall (ranks a) <= 100 ->
  0.005 < overall (ranks a) - overall (ranks b) <= 0.5 ->
  (recency_bonus (metrics a) < recency_bonus (metrics b))%Z ->
  DataExporter.csv_performance_less a b = true
  /\ DataExporter.csv_performance_less b a = false
  /\ 0 < DashboardView.compare DashboardView.default_mode
           DashboardView.K_overall a b.
Proof.
  intros Hb Ha Hgap Hrec.
  destruct (csv_orders_by_score_outside_band a b (overall (ranks a))
              (overall (ranks b))) as (H1 & H2);
    [unfold Config.Weights.TIE_THRESHOLD; lra|].
  split; [exact H1|]. split; [exact H2|].
  rewrite dashboard_band_decides_by_recency.
  - apply IZR_lt. lia.
  - cbn [DashboardView.rank_at ToJSON_ranks overall].
    rewrite !clamp_id by lra. unfold Rabs. destruct (Rcase_abs _); lra.
Qed.

Lemma exports_order_oppositely_example :
  DataExporter.csv_performance_less (ranked 50.3 0) (ranked 50.0 3) = true
  /\ DataExporter.csv_performance_less (ranked 50.0 3) (ranked 50.3 0) = false
  /\ 0 < DashboardView.compare DashboardView.default_mode
           DashboardView.K_overall (ranked 50.3 0) (ranked 50.0 3).
Proof.
  apply exports_order_oppositely; simpl; try lra; lia.
Qed.

(** C1 (code departs from the claim). Two records as the pipeline builds
    them from the entries [item_a] and [item_b]: overall scores 53.5 and
    53.707 on the 0-100 scale, the same recency tier.  The gap of 0.207 is
    inside the 0.5-point band, so the stated rule and the dashboard leave
    the order to the recency tier (a tie here), while the CSV and the legacy
    text comparators, which compare the same 0-100 scores against 0.005,
    rank by score. *)
Theorem tie_threshold_diverges_between_exports :
  exists a b,
    IntelligenceEngine.build no_stod "a" item_a = Some a
    /\ IntelligenceEngine.build no_stod "b" item_b = Some b
    /\ overall (ranks a) = 53.5
    /\ overall (ranks b) = 53.707
    /\ recency_bonus (metrics a) = recency_bonus (metrics b)
    /\ DataExporter.csv_performance_less b a = true
    /\ DataExporter.legacy_less b a = true
    /\ DashboardView.compare DashboardView.default_mode
         DashboardView.K_overall a b = 0
    /\ DashboardView.compare DashboardView.default_mode
         DashboardView.K_overall b a = 0
    /\ Claimed.sorts_first b a (overall (ranks b)) (overall (ranks a))
       = false.
Proof.
  destruct build_item_a as (a & Ha & Hoa & Hra & _).
  destruct build_item_b as (b & Hb & Hob & Hrb & _).
  exists a, b.
  assert (Hcsv : DataExporter.csv_performance_less b a = true).
  { unfold DataExporter.csv_performance_less.
    apply csv_orders_by_score_outside_band.
    unfold Config.Weights.TIE_THRESHOLD. rewrite Hoa, Hob. lra. }
  assert (Hband : forall x y,
             (x = a /\ y = b) \/ (x = b /\ y = a) ->
             Rabs (DashboardView.rank_at (ToJSON_ranks x) DashboardView.K_overall
                   - DashboardView.rank_at (ToJSON_ranks y)
                       DashboardView.K_overall) <= 0.5).
  { intros x y [[-> ->]|[-> ->]];
      cbn [DashboardView.rank_at ToJSON_ranks overall];
      rewrite Hoa, Hob, !clamp_id by lra;
      unfold Rabs; destruct (Rcase_abs _); lra. }
  repeat split; try assumption.
  - congruence.
  - rewrite legacy_agrees_with_csv. exact Hcsv.
  - rewrite dashboard_band_decides_by_recency by (apply Hband; auto).
    rewrite Hra, Hrb. reflexivity.
  - rewrite dashboard_band_decides_by_recency by (apply Hband; auto).
    rewrite Hra, Hrb. reflexivity.
  - unfold Claimed.sorts_first. rewrite Hoa, Hob, Hra, Hrb.
    assert (H : Rleb (Rabs (53.707 - 53.5)) 0.5 = true).
    { apply Rleb_true. unfold Rabs. destruct (Rcase_abs _); lra. }
    rewrite H. reflexivity.
Qed.

Lemma ComputeRankings_coding (m : ModelEntity) :
  coding (ranks (ComputeRankings m))
  = Claimed.coding_view (coding_score (metrics m))
      (reasoning_score (metrics m)) (context_window (metrics m))
      (confidence_score m).
Proof.
  unfold ComputeRankings, Claimed.coding_view. cbn [ranks set_ranks coding].
  replace 200000.0 with 200000 by lra. replace 0.0 with 0 by lra.
  replace 1.0 with 1 by lra. lra.
Qed.

(** The coding view reads the [context_window] field as a token count. *)
Lemma RecalculateConfidence_coding (m : ModelEntity) :
  coding (ranks (RecalculateConfidence m))
  = Claimed.coding_view (coding_score (metrics m))
      (reasoning_score (metrics m)) (context_window (metrics m))
      (confidence_score (RecalculateConfidence m)).
Proof.
  unfold RecalculateConfidence at 1. rewrite ComputeRankings_coding.
  unfold RecalculateConfidence.
  rewrite (proj1 (proj2 (proj2 (ComputeRankings_keeps _)))).
  cbn [signals set_confidence_reason].
  destruct (signals m); reflexivity.
Qed.

(** [Enrich] has already divided the token count by 200,000 when
    [ComputeRankings] divides the field again: for every positive
    [context_length] the coding score is strictly below the stated one. *)
Lemma coding_view_below_stated (stod : string -> option R)
    (m m' : ModelEntity) (item : json) (x : R) :
  KnowledgeBase.Enrich stod m item = Some m' ->
  Utils.TryGetDouble stod item "context_length" = Some x ->
  0 < x ->
  coding (ranks (RecalculateConfidence m'))
  < Claimed.coding_view (coding_score (metrics m'))
      (reasoning_score (metrics m')) x
      (confidence_score (RecalculateConfidence m')).
Proof.
  intros He Hx Hpos. rewrite RecalculateConfidence_coding.
  destruct (Enrich_shape _ _ _ _ He) as (ms & p & -> & _ & Hc).
  rewrite Hx in Hc. cbn [metrics enriched_with set_metrics].
  unfold Claimed.coding_view. rewrite Hc. unfold_cmp. case_R.
Qed.

(** C4 (code departs from the claim). The entry [item_ctx200k] carries a
    context length of 200,000 tokens, the ceiling: the stated formula gives
    a coding score of 51.5, the pipeline gives 41.50005, the context term
    weighing 0.00005 instead of 10 points. *)
Theorem coding_view_normalises_context_twice :
  exists r,
    IntelligenceEngine.build no_stod "m" item_ctx200k = Some r
    /\ coding (ranks r) = 41.50005
    /\ Claimed.coding_view (coding_score (metrics r))
         (reasoning_score (metrics r)) 200000 (confidence_score r) = 51.5.
Proof.
  destruct build_item_ctx200k as (r & Hb & Hc & Hcs & Hrs & _ & Hconf).
  exists r. split; [exact Hb|]. split; [exact Hc|].
  unfold Claimed.coding_view. rewrite Hcs, Hrs, Hconf.
  rewrite clamp_id by lra. lra.
Qed.

(** ** Instances *)

Lemma zero_signal_witness :
  (exists r,
      IntelligenceEngine.build no_stod "z" item_zero = Some r
      /\ signals r = [] /\ final_score r = 0 /\ confidence_score r = 10)
  /\ IntelligenceEngine.registry
       (IntelligenceEngine.process_item no_stod IntelligenceEngine.initial
          item_zero) = [].
Proof.
  destruct build_item_zero as (r & Hb & Hs & Hf).
  destruct (zero_signal_record_never_persisted no_stod) as (T1 & T2 & _).
  split.
  - exists r. split; [exact Hb|]. split; [exact Hs|]. exact (T1 _ _ _ Hb Hs).
  - apply (T2 IntelligenceEngine.initial item_zero "z"%string r);
      [reflexivity | discriminate | reflexivity | exact Hb | lra].
Defined.

Lemma duplicate_name_witness :
  let st := IntelligenceEngine.accept IntelligenceEngine.initial
              (new_ModelEntity "a" "lab") in
  IntelligenceEngine.process_item no_stod st item_a = st
  /\ IntelligenceEngine.skipped
       (IntelligenceEngine.process_item no_stod st item_nameless) = 1%Z.
Proof.
  intros st. split.
  - apply (proj1 (duplicate_name_skipped_without_count no_stod st item_a)
             "a"%string); [reflexivity | discriminate | reflexivity].
  - apply (proj1 (proj2 (duplicate_name_skipped_without_count
                           no_stod st item_nameless))).
    left. reflexivity.
Defined.

Lemma ingestion_witness :
  signals (IntelligenceEngine.add_item_signals no_stod item_a
             (new_ModelEntity "a" "Unknown"))
  = attached_signals no_stod item_a
  /\ (List.length (attached_signals no_stod item_a) <= 1)%nat.
Proof.
  exact (proj1 (ingestion_attaches_at_most_one_signal no_stod)
           item_a "a"%string "Unknown"%string).
Defined.

(** * Further properties of the code *)

(** ** Signal evidence model *)

(** X3. A sequence of [AddSignal] calls appends exactly the calls with a
    positive score, in call order and with the score clamped to [0,1];
    signals already present are kept, calls with a score of 0 or less leave
    no trace. *)
Theorem add_signals_keeps_positive_calls_in_order :
  forall (calls : list SignalCall) (m : ModelEntity),
    signals (add_signals calls m) = signals m ++ kept_signals calls
    /\ name (add_signals calls m) = name m
    /\ final_score (add_signals calls m) = final_score m
    /\ metrics (add_signals calls m) = metrics m.
Proof.
  induction calls as [|c calls IH]; intros m.
  - simpl. rewrite app_nil_r. repeat split.
  - unfold add_signals in *. cbn [fold_left].
    destruct (IH (AddSignal (call_source c) (call_score c) (call_weight c) m))
      as (H1 & H2 & H3 & H4).
    rewrite H1, H2, H3, H4, AddSignal_signals, AddSignal_name, AddSignal_metrics.
    unfold kept_signals. cbn [filter].
    unfold AddSignal. replace 0.0 with 0 by lra.
    destruct (Rltb 0 (call_score c)); cbn [map final_score set_signals];
      rewrite <- ?app_assoc; repeat split.
Qed.

(** X4. [ComputeAggregates] is idempotent: a second call on its own result
    changes no field. *)
Theorem ComputeAggregates_idempotent :
  forall m : ModelEntity,
    ComputeAggregates (ComputeAggregates m) = ComputeAggregates m.
Proof.
  intros m. unfold ComputeAggregates.
  destruct (signals m) as [|s l] eqn:E;
    cbn [signals set_metrics set_final_score set_confidence_reason metrics
         last_updated_days_ago set_recency_bonus final_score name
         organization modalities ranks confidence_score confidence_reason
         reasoning_score coding_score creative_score context_window
         price_input_1m tokens_per_sec is_open_source is_enterprise_ready
         org_maturity uptime_sla recency_bonus];
    rewrite ?E; reflexivity.
Qed.

(** X5. The recency tier is one of 0..3, never grows with staleness, and
    agrees with the recency bonus of the confidence: the bonus is positive
    exactly for tiers 2 and 3 and is the full 5 points exactly for tier 3. *)
Theorem recency_tier_range_and_monotone :
  forall d d' : Z,
    (0 <= recency_of_days d <= 3)%Z
    /\ ((d <= d')%Z -> (recency_of_days d' <= recency_of_days d)%Z)
    /\ (0 < recency_term d <-> (2 <= recency_of_days d)%Z)
    /\ (recency_term d = 5 <-> recency_of_days d = 3%Z).
Proof.
  intros d d'. unfold recency_of_days, recency_term.
  destruct (Z.leb_spec d 30); destruct (Z.leb_spec d 90);
    destruct (Z.leb_spec d 180); destruct (Z.leb_spec d' 30);
    destruct (Z.leb_spec d' 90); destruct (Z.leb_spec d' 180);
    repeat split; intros; try lia; try lra.
Qed.

(** ** Confidence estimator and ranking calculator *)

Lemma RecalculateConfidence_from_state (x y : ModelEntity) :
  name x = name y -> organization x = organization y ->
  modalities x = modalities y -> metrics x = metrics y ->
  signals x = signals y -> final_score x = final_score y ->
  RecalculateConfidence x = RecalculateConfidence y.
Proof.
  destruct x, y. cbn. intros; subst.
  unfold RecalculateConfidence. cbn [signals set_confidence_reason].
  destruct signals1; reflexivity.
Qed.

Lemma RecalculateConfidence_organization (m : ModelEntity) :
  organization (RecalculateConfidence m) = organization m.
Proof.
  unfold RecalculateConfidence. cbn [signals set_confidence_reason].
  destruct (signals m); reflexivity.
Qed.

(** X6. Recomputing changes nothing: [RecalculateConfidence] applied to its
    own result returns it unchanged (rationale, confidence and all eight
    ranks), and so does [ComputeRankings]. *)
Theorem RecalculateConfidence_idempotent :
  forall m : ModelEntity,
    RecalculateConfidence (RecalculateConfidence m) = RecalculateConfidence m
    /\ ComputeRankings (RecalculateConfidence m) = RecalculateConfidence m.
Proof.
  intros m.
  destruct (RecalculateConfidence_keeps m) as (Hs & Hf & Hm & Hms & Hn).
  split.
  - apply RecalculateConfidence_from_state;
      auto using RecalculateConfidence_organization.
  - unfold RecalculateConfidence. cbn [signals set_confidence_reason].
    destruct (signals m); reflexivity.
Qed.

Lemma bonus_total_upper (n : nat) ms p fs :
  bonus_total n ms p fs <= 85 + INR n * 10.
Proof.
  unfold bonus_total, recency_term, quality_term, Rltb.
  destruct (last_updated_days_ago p <=? 30)%Z;
    [|destruct (last_updated_days_ago p <=? 90)%Z];
    destruct (_ || _); destruct (is_enterprise_ready p); case_R.
Qed.

(** X7. Every record in the registry after a run has a confidence between
    50 and 95: with its single signal the floor of 10 and the cap of 99 of
    the clamp are never reached. *)
Theorem registry_confidence_between_50_and_95 :
  forall (stod : string -> option R) (data : json),
    Forall (fun r => 50 <= confidence_score r <= 95)
      (IntelligenceEngine.registry
         (IntelligenceEngine.Run stod IntelligenceEngine.initial data)).
Proof.
  intros stod data. apply Run_invariant. intros nm item r Hb Hf.
  destruct (built_positive_has_signal stod nm item r Hb) as (Hpos & Hlen & _).
  apply Hpos in Hf.
  destruct (build_inv _ _ _ _ Hb) as (org & ms & p & ->).
  set (e := enriched_with _ ms p) in *.
  rewrite (proj1 (RecalculateConfidence_keeps e)) in Hf, Hlen.
  rewrite RecalculateConfidence_confidence.
  destruct (signals e) as [|s [|s' l]] eqn:E; [congruence| |simpl in Hlen; lia].
  unfold raw_confidence. rewrite variance_single by (rewrite E; simpl; lia).
  rewrite E.
  pose proof (bonus_total_lower 1 (modalities e) (metrics e) (final_score e)).
  pose proof (bonus_total_upper 1 (modalities e) (metrics e) (final_score e)).
  cbn [List.length] in *. change (INR 1) with 1 in *.
  rewrite clamp_id by lra. lra.
Qed.



Lemma log10_monotone (x y : R) : 0 < x -> x <= y -> Std.log10 x <= Std.log10 y.
Proof.
  intros Hx Hxy. unfold Std.log10. pose proof ln_10_pos as H10.
  apply Rmult_le_compat_r; [left; apply Rinv_0_lt_compat; exact H10|].
  destruct Hxy as [Hlt| ->]; [left; apply ln_increasing; assumption | right; reflexivity].
Qed.

Lemma inverse_antitone (a b : R) : 0 < a -> a <= b -> 1 / b <= 1 / a.
Proof.
  intros Ha Hab. unfold Rdiv. rewrite !Rmult_1_l.
  apply Rinv_le_contravar; assumption.
Qed.

(** X9. For a record with an aggregate in [0,1], raising the price (from
    any price p >= 0 to any q >= p, the free case included) never raises the
    overall, the speed or the value score. *)
Theorem dearer_never_ranks_higher :
  forall (m : ModelEntity) (p q : R),
    0 <= final_score m <= 1 ->
    0 <= p <= q ->
    let cheap := ranks (ComputeRankings (with_price m p)) in
    let dear := ranks (ComputeRankings (with_price m q)) in
    overall dear <= overall cheap
    /\ speed dear <= speed cheap
    /\ value dear <= value cheap.
Proof.
  intros m p q Hs Hpq cheap dear. subst cheap dear.
  assert (Hpf : 1 / (1 + q / 10) <= 1 / (1 + p / 10))
    by (apply inverse_antitone; lra).
  split; [|split].
  - unfold ComputeRankings, with_price.
    cbn [ranks set_ranks overall metrics set_metrics set_price price_input_1m
         final_score coding_score creative_score confidence_score].
    unfold Config.Weights.OVERALL_PRICE.
    replace (1.0 / (1.0 + q / 10.0)) with (1 / (1 + q / 10)) by (f_equal; lra).
    replace (1.0 / (1.0 + p / 10.0)) with (1 / (1 + p / 10)) by (f_equal; lra).
    lra.
  - unfold ComputeRankings, with_price.
    cbn [ranks set_ranks speed metrics set_metrics set_price price_input_1m
         tokens_per_sec confidence_score].
    replace (1.0 / (1.0 + q / 10.0)) with (1 / (1 + q / 10)) by (f_equal; lra).
    replace (1.0 / (1.0 + p / 10.0)) with (1 / (1 + p / 10)) by (f_equal; lra).
    lra.
  - destruct (Rle_lt_or_eq_dec 0 p (proj1 Hpq)) as [Hp|Hp0].
    + assert (Hq : 0 < q) by lra.
      rewrite (value_of_priced (with_price m q)), (value_of_priced (with_price m p))
        by (cbn; assumption).
      cbn [with_price metrics set_metrics set_price price_input_1m final_score].
      pose proof (log10_pos (p + 1) ltac:(lra)) as Hlp.
      pose proof (log10_monotone (p + 1) (q + 1) ltac:(lra) ltac:(lra)) as Hl.
      assert (H2 : 0 <= final_score m ^ 2) by (simpl; nra).
      unfold Rdiv. apply Rmult_le_compat_l; [exact H2|].
      apply Rinv_le_contravar; lra.
    + subst p. rewrite (value_of_free (with_price m 0)) by (cbn; lra).
      cbn [with_price final_score].
      destruct (Rle_lt_or_eq_dec 0 q (proj2 Hpq)) as [Hq|Hq0].
      * assert (Hv : value (ranks (ComputeRankings (with_price m q)))
                     = final_score m ^ 2 / (Std.log10 (q + 1) + 0.1))
          by (rewrite value_of_priced by (cbn; assumption); reflexivity).
        rewrite Hv.
        pose proof (log10_pos (q + 1) ltac:(lra)) as Hlq.
        assert (Hd : 0.1 < Std.log10 (q + 1) + 0.1) by lra.
        set (d := Std.log10 (q + 1) + 0.1) in *.
        apply Rmult_le_reg_r with (r := d); [lra|].
        unfold Rdiv. rewrite Rmult_assoc, Rinv_l by lra. simpl. nra.
      * subst q. rewrite (value_of_free (with_price m 0)) by (cbn; lra).
        cbn [with_price final_score]. lra.
Qed.

Lemma dearer_never_ranks_higher_witness :
  overall (ranks (ComputeRankings (with_price free_sample 30)))
  <= overall (ranks (ComputeRankings (with_price free_sample 2)))
  /\ value (ranks (ComputeRankings (with_price free_sample 30)))
     <= value (ranks (ComputeRankings (with_price free_sample 2))).
Proof.
  destruct (dearer_never_ranks_higher free_sample 2 30) as (H1 & _ & H3).
  - cbn. lra.
  - lra.
  - split; [exact H1 | exact H3].
Defined.

(** X10. In the document written by [ToJSON], a free record (price <= 0)
    with an aggregate of at least 0.1 has a Value of exactly 100, the clamp's
    cap, while a priced record with an aggregate in [0,1] keeps its
    unclamped Value, which is below 10. *)
Theorem exported_value_saturates_for_free_records :
  forall m : ModelEntity,
    (price_input_1m (metrics m) <= 0 -> 0.1 <= final_score m ->
     value (ToJSON_ranks (ComputeRankings m)) = 100)
    /\ (0 < price_input_1m (metrics m) -> 0 <= final_score m <= 1 ->
        value (ToJSON_ranks (ComputeRankings m))
        = value (ranks (ComputeRankings m))
        /\ value (ToJSON_ranks (ComputeRankings m)) < 10).
Proof.
  intros m. split.
  - intros Hp Hs. cbn [ToJSON_ranks value]. rewrite value_of_free by assumption.
    unfold_cmp. case_R.
  - intros Hp Hs. cbn [ToJSON_ranks value].
    pose proof (value_of_priced_below_ten m Hs Hp) as Hlt.
    assert (H0 : 0 <= value (ranks (ComputeRankings m))).
    { rewrite value_of_priced by assumption.
      pose proof (log10_pos (price_input_1m (metrics m) + 1) ltac:(lra)).
      apply Rmult_le_pos; [simpl; nra|].
      left. apply Rinv_0_lt_compat. lra. }
    rewrite clamp_id by lra. split; [reflexivity | exact Hlt].
Qed.

Lemma exported_value_saturates_witness :
  value (ToJSON_ranks (ComputeRankings free_sample)) = 100
  /\ value (ToJSON_ranks (ComputeRankings (with_price free_sample 2))) < 10.
Proof.
  split.
  - apply (proj1 (exported_value_saturates_for_free_records free_sample));
      cbn; lra.
  - apply (proj2 (exported_value_saturates_for_free_records
                    (with_price free_sample 2))); cbn; lra.
Defined.






(** ** Serialisation and knowledge base *)

(** X12. The primary type shown for a record is "Video" exactly when Video
    is in its modality set, "Image" exactly for the set {Image},
    "Multimodal" exactly for {Text, Image}, and "Text" for every set with
    neither Image nor Video, the empty set included. *)
Theorem primary_type_by_modality_set :
  forall m : ModelEntity,
    let t := ToJSON_primary_type m in
    let ms := modalities m in
    (t = "Video"%string <-> has_video ms = true)
    /\ (t = "Image"%string <->
        has_video ms = false /\ has_image ms = true /\ has_text ms = false)
    /\ (t = "Multimodal"%string <->
        has_video ms = false /\ has_image ms = true /\ has_text ms = true)
    /\ (t = "Text"%string <-> has_video ms = false /\ has_image ms = false).
Proof.
  intros m t ms. subst t ms. unfold ToJSON_primary_type, ModSet.size, ModSet.count.
  destruct (modalities m) as [[] [] []]; cbn;
    repeat split; intros; try discriminate; try tauto;
    repeat match goal with H : _ /\ _ |- _ => destruct H end;
    try discriminate.
Qed.

Lemma tolower_idempotent (c : ascii) :
  Utils.tolower (Utils.tolower c) = Utils.tolower c.
Proof. destruct c as [[] [] [] [] [] [] [] []]; reflexivity. Qed.

(** X13. [ToLower] keeps the length of a string and is idempotent, so the
    lower-cased name and organization [Enrich] matches on are already in
    normal form. *)
Theorem ToLower_idempotent_same_length :
  forall s : string,
    Utils.ToLower (Utils.ToLower s) = Utils.ToLower s
    /\ String.length (Utils.ToLower s) = String.length s.
Proof.
  induction s as [|c s [IH1 IH2]]; [split; reflexivity|].
  cbn [Utils.ToLower String.length]. rewrite tolower_idempotent, IH1, IH2.
  split; reflexivity.
Qed.

(** X14. [TryGetDouble] yields a value exactly when the key is present with
    a number, or with a string that [std::stod] accepts; a missing key, a
    null, a boolean, an array or an object yield nothing, and so does
    anything asked of a value that is not an object. *)
Theorem TryGetDouble_some_iff :
  forall (stod : string -> option R) (j : json) (key : string) (x : R),
    Utils.TryGetDouble stod j key = Some x
    <-> Json.find j key = Some (JNumber x)
        \/ exists str, Json.find j key = Some (JString str)
                       /\ stod str = Some x.
Proof.
  intros stod j key x. unfold Utils.TryGetDouble, Json.contains, Json.at_key.
  destruct (Json.find j key) as [v|]; cbn.
  - destruct v; cbn; split; intros H;
      try discriminate;
      try (destruct H as [H|(str & H & _)]; discriminate).
    + injection H as ->. left. reflexivity.
    + destruct H as [H|(str & H & _)]; [injection H as ->; reflexivity | discriminate].
    + right. eexists. split; [reflexivity | exact H].
    + destruct H as [H|(str & H & Hs)]; [discriminate|].
      injection H as ->. exact Hs.
  - split; [discriminate|]. intros [H|(str & H & _)]; discriminate.
Qed.

Lemma mod_union_insert (x : Modality) (s : ModalitySet) :
  ModSet.insert x s = mod_union s (ModSet.insert x ModSet.empty).
Proof. destruct s as [[] [] []], x; reflexivity. Qed.

Lemma mod_union_assoc (a b c : ModalitySet) :
  mod_union (mod_union a b) c = mod_union a (mod_union b c).
Proof. destruct a as [[] [] []], b as [[] [] []], c as [[] [] []]; reflexivity. Qed.

Lemma mod_union_empty (a : ModalitySet) : mod_union a ModSet.empty = a.
Proof. destruct a as [[] [] []]; reflexivity. Qed.

Lemma mod_union_absorb (a b : ModalitySet) :
  mod_union (mod_union a b) b = mod_union a b.
Proof. destruct a as [[] [] []], b as [[] [] []]; reflexivity. Qed.

Lemma insert_listed_union (mods : list json) : forall s,
  KnowledgeBase.insert_listed mods s
  = option_map (mod_union s) (KnowledgeBase.insert_listed mods ModSet.empty).
Proof.
  induction mods as [|md mods IH]; intros s; cbn [KnowledgeBase.insert_listed].
  - cbn. rewrite mod_union_empty. reflexivity.
  - destruct (Json.get_string md) as [str|]; [|reflexivity].
    cbv zeta.
    set (f := fun t : ModalitySet =>
                if (Utils.ToLower str =? "image")%string
                   || (Utils.ToLower str =? "vision")%string
                then ModSet.insert Image t
                else if (Utils.ToLower str =? "video")%string
                then ModSet.insert Video t
                else if (Utils.ToLower str =? "text")%string
                then ModSet.insert Text t else t).
    change (KnowledgeBase.insert_listed mods (f s)
            = option_map (mod_union s)
                (KnowledgeBase.insert_listed mods (f ModSet.empty))).
    assert (Hf : forall t, f t = mod_union t (f ModSet.empty)).
    { intros t. subst f. cbv beta.
      destruct (_ || _); [apply mod_union_insert|].
      destruct (_ =? "video")%string; [apply mod_union_insert|].
      destruct (_ =? "text")%string; [apply mod_union_insert|].
      rewrite mod_union_empty. reflexivity. }
    rewrite (IH (f s)), (IH (f ModSet.empty)).
    destruct (KnowledgeBase.insert_listed mods ModSet.empty) as [r|];
      [|reflexivity].
    cbn [option_map]. rewrite (Hf s), mod_union_assoc. reflexivity.
Qed.

Lemma insert_listed_none_iff (mods : list json) : forall s,
  KnowledgeBase.insert_listed mods s = None
  <-> exists v, In v mods /\ Json.is_string v = false.
Proof.
  induction mods as [|md mods IH]; intros s; cbn [KnowledgeBase.insert_listed].
  - split; [discriminate | intros (v & [] & _)].
  - destruct md; cbn [Json.get_string];
      try (split; [intros _; eexists; split; [left; reflexivity | reflexivity]
                  | reflexivity]).
    cbv zeta. rewrite IH. split.
    + intros (v & Hin & Hv). exists v. split; [right; exact Hin | exact Hv].
    + intros (v & [<-|Hin] & Hv); [discriminate|]. exists v. split; assumption.
Qed.

Lemma insert_by_name_union (n : string) (s : ModalitySet) :
  KnowledgeBase.insert_by_name n s
  = mod_union s (KnowledgeBase.insert_by_name n ModSet.empty).
Proof.
  unfold KnowledgeBase.insert_by_name.
  repeat match goal with
  | |- context [if ?b then _ else _] => destruct b
  end; destruct s as [[] [] []]; reflexivity.
Qed.

Lemma insert_by_name_has_text (n : string) (s : ModalitySet) :
  has_text (KnowledgeBase.insert_by_name n s) = true.
Proof.
  unfold KnowledgeBase.insert_by_name.
  repeat match goal with
  | |- context [if ?b then _ else _] => destruct b
  end; reflexivity.
Qed.

Lemma detect_modalities_union (n : string) (item : json) (s : ModalitySet) :
  KnowledgeBase.detect_modalities n item s
  = option_map (mod_union s)
      (KnowledgeBase.detect_modalities n item ModSet.empty).
Proof.
  unfold KnowledgeBase.detect_modalities.
  destruct (Json.contains item "modalities");
    [destruct (Json.at_key item "modalities")|];
    cbn [option_map]; try (f_equal; apply insert_by_name_union).
  apply insert_listed_union.
Qed.

Lemma detect_modalities_none_iff (n : string) (item : json) (s : ModalitySet) :
  KnowledgeBase.detect_modalities n item s = None <-> bad_modalities item.
Proof.
  unfold KnowledgeBase.detect_modalities, bad_modalities, Json.contains,
    Json.at_key.
  destruct (Json.find item "modalities") as [v|].
  - destruct v;
      try (split; [discriminate | intros (mods & w & H & _); discriminate]).
    rewrite insert_listed_none_iff. split.
    + intros (v & Hin & Hv). exists items, v. repeat split; assumption.
    + intros (mods & v & H & Hin & Hv). injection H as <-. exists v.
      split; assumption.
  - split; [discriminate | intros (mods & w & H & _); discriminate].
Qed.

(** X15. [Enrich] throws exactly when the ["modalities"] member of the
    entry is an array that holds something other than a string; every other
    entry, whatever its members, is enriched. *)
Theorem Enrich_fails_iff_bad_modalities :
  forall (stod : string -> option R) (m : ModelEntity) (item : json),
    KnowledgeBase.Enrich stod m item = None <-> bad_modalities item.
Proof.
  intros stod m item. rewrite <- (detect_modalities_none_iff
    (Utils.ToLower (name m)) item (modalities m)).
  unfold KnowledgeBase.Enrich.
  destruct (KnowledgeBase.detect_modalities _ _ _);
    split; try discriminate; reflexivity.
Qed.

(** X16. [Enrich] never removes a modality, and when the entry lists none
    (no ["modalities"] array) the resulting set always contains Text. *)
Theorem Enrich_keeps_modalities_and_defaults_to_text :
  forall (stod : string -> option R) (m m' : ModelEntity) (item : json),
    KnowledgeBase.Enrich stod m item = Some m' ->
    (forall x, ModSet.count (modalities m) x = 1%nat ->
               ModSet.count (modalities m') x = 1%nat)
    /\ ((forall mods, Json.find item "modalities" <> Some (JArray mods)) ->
        has_text (modalities m') = true).
Proof.
  intros stod m m' item H. unfold KnowledgeBase.Enrich in H.
  destruct (KnowledgeBase.detect_modalities _ _ _) as [ms|] eqn:D;
    [|discriminate].
  injection H as <-. cbn [modalities set_metrics set_modalities]. split.
  - rewrite detect_modalities_union in D.
    destruct (KnowledgeBase.detect_modalities _ _ ModSet.empty) as [f|];
      [|discriminate].
    injection D as <-. intros x. unfold ModSet.count, mod_union.
    destruct (modalities m) as [[] [] []], x; cbn; congruence.
  - intros Hno. unfold KnowledgeBase.detect_modalities, Json.contains,
      Json.at_key in D.
    destruct (Json.find item "modalities") as [v|].
    + destruct v; try (injection D as <-; apply insert_by_name_has_text).
      exfalso. eapply Hno. reflexivity.
    + injection D as <-. apply insert_by_name_has_text.
Qed.

Lemma min_upper (a b : R) : Std.min a b <= a.
Proof. unfold_cmp. case_R. Qed.

(** X17. Whatever the entry holds, the metrics [Enrich] writes satisfy:
    creative score and context window at most 1, reasoning score equal to
    the aggregate, staleness one of 15, 60, 90, 180 or 365 days, maturity
    and uptime 0.95 and 0.99 for an enterprise-ready organization and 0.5
    and 0.8 otherwise; the recency tier is left as it was. *)
Theorem Enrich_metric_ranges :
  forall (stod : string -> option R) (m m' : ModelEntity) (item : json),
    KnowledgeBase.Enrich stod m item = Some m' ->
    let p := metrics m' in
    creative_score p <= 1
    /\ context_window p <= 1
    /\ reasoning_score p = final_score m
    /\ In (last_updated_days_ago p) enrich_days
    /\ (org_maturity p, uptime_sla p)
       = (if is_enterprise_ready p then (0.95, 0.99) else (0.5, 0.8))
    /\ recency_bonus p = recency_bonus (metrics m).
Proof.
  intros stod m m' item H p. subst p. unfold KnowledgeBase.Enrich in H.
  destruct (KnowledgeBase.detect_modalities _ _ _) as [ms|]; [|discriminate].
  injection H as <-.
  cbn [metrics set_metrics creative_score context_window reasoning_score
       last_updated_days_ago org_maturity uptime_sla is_enterprise_ready
       recency_bonus final_score set_modalities].
  split; [|split; [|split; [|split; [|split]]]].
  - destruct (Utils.TryGetDouble stod item "creative_score");
      [|destruct (_ || _); [|destruct (_ || _)]];
      (eapply Rle_trans; [apply min_upper | lra]).
  - destruct (Utils.TryGetDouble stod item "context_length");
      [eapply Rle_trans; [apply min_upper | lra]|].
    destruct (_ || _); lra.
  - reflexivity.
  - unfold enrich_days.
    destruct (KnowledgeBase.present item "release_date"); [cbn; tauto|].
    destruct (KnowledgeBase.present item "updated_at"); [cbn; tauto|].
    destruct (Utils.found _ "2025"); [cbn; tauto|].
    destruct (Utils.found _ "2024"); [cbn; tauto|].
    destruct (Utils.found _ "2023"); cbn; tauto.
  - destruct (_ || _); reflexivity.
  - reflexivity.
Qed.

(** X18. [Enrich] is idempotent: enriching an enriched record with the same
    entry returns it unchanged. *)
Theorem Enrich_idempotent :
  forall (stod : string -> option R) (m m' : ModelEntity) (item : json),
    KnowledgeBase.Enrich stod m item = Some m' ->
    KnowledgeBase.Enrich stod m' item = Some m'.
Proof.
  intros stod m m' item H. unfold KnowledgeBase.Enrich in H.
  destruct (KnowledgeBase.detect_modalities _ _ _) as [ms|] eqn:D;
    [|discriminate].
  injection H as <-.
  assert (D' : KnowledgeBase.detect_modalities (Utils.ToLower (name m)) item ms
               = Some ms).
  { rewrite detect_modalities_union in D |- *.
    destruct (KnowledgeBase.detect_modalities _ _ ModSet.empty) as [f|];
      [|discriminate].
    injection D as <-. cbn [option_map]. rewrite mod_union_absorb.
    reflexivity. }
  unfold KnowledgeBase.Enrich at 1.
  cbn [name organization modalities set_metrics set_modalities].
  rewrite D'. reflexivity.
Qed.

Lemma Enrich_item_a :
  exists m',
    KnowledgeBase.Enrich no_stod (new_ModelEntity "a" "Unknown") item_a
    = Some m'.
Proof. eexists. reflexivity. Qed.

Lemma Enrich_modalities_witness :
  exists m',
    KnowledgeBase.Enrich no_stod (new_ModelEntity "a" "Unknown") item_a
    = Some m'
    /\ has_text (modalities m') = true.
Proof.
  destruct Enrich_item_a as (m' & H). exists m'. split; [exact H|].
  apply (proj2 (Enrich_keeps_modalities_and_defaults_to_text
                  no_stod _ m' item_a H)).
  intros mods. discriminate.
Defined.

Lemma Enrich_metric_ranges_witness :
  exists m',
    KnowledgeBase.Enrich no_stod (new_ModelEntity "a" "Unknown") item_a
    = Some m'
    /\ creative_score (metrics m') <= 1.
Proof.
  destruct Enrich_item_a as (m' & H). exists m'. split; [exact H|].
  exact (proj1 (Enrich_metric_ranges no_stod _ m' item_a H)).
Defined.

Lemma Enrich_idempotent_witness :
  exists m',
    KnowledgeBase.Enrich no_stod (new_ModelEntity "a" "Unknown") item_a
    = Some m'
    /\ KnowledgeBase.Enrich no_stod m' item_a = Some m'.
Proof.
  destruct Enrich_item_a as (m' & H). exists m'. split; [exact H|].
  exact (Enrich_idempotent no_stod _ m' item_a H).
Defined.

(** ** Ingestion loop, continued *)

Section LoopAccounting.
Import IntelligenceEngine.
Variable stod : string -> option R.

(** The three outcomes of one iteration. *)
Lemma process_item_cases (st : State) (item : json) :
  process_item stod st item = st
  \/ process_item stod st item = skip st
  \/ exists nm r,
       Json.find item "name" = Some (JString nm)
       /\ nm <> ""%string
       /\ exists_in (registry st) nm = false
       /\ build stod nm item = Some r
       /\ 0 < final_score r
       /\ process_item stod st item = accept st r.
Proof.
  unfold process_item, Json.contains, Json.at_key.
  destruct (Json.find item "name") as [v|] eqn:Hfind; [|right; left; reflexivity].
  destruct v; try (right; left; reflexivity).
  cbn [Json.is_null Json.is_string Json.get_string negb orb].
  destruct (String.eqb_spec s ""); [right; left; reflexivity|].
  destruct (exists_in (registry st) s) eqn:Ex; [left; reflexivity|].
  destruct (build stod s item) as [r|] eqn:Eb; [|right; left; reflexivity].
  destruct (Rltb 0 (final_score r)) eqn:Ef; [|left; reflexivity].
  right; right. exists s, r. apply Rltb_true in Ef. repeat split; assumption.
Qed.

Lemma run_loop_accounting_aux : forall data st,
  exists added,
    registry (run_loop stod st data) = registry st ++ added
    /\ processed (run_loop stod st data)
       = (processed st + Z.of_nat (List.length added))%Z
    /\ (skipped st <= skipped (run_loop stod st data))%Z
    /\ (Z.of_nat (List.length added)
        + (skipped (run_loop stod st data) - skipped st)
        <= Z.of_nat (List.length data))%Z.
Proof.
  unfold run_loop.
  induction data as [|item data IH]; intros st.
  - exists []. cbn. rewrite app_nil_r. repeat split; lia.
  - cbn [fold_left]. destruct (IH (process_item stod st item))
      as (added & Hr & Hp & Hs & Hn).
    destruct (process_item_cases st item)
      as [E|[E|(nm & r & _ & _ & _ & _ & _ & E)]]; rewrite E in *.
    + exists added. cbn [List.length]. repeat split; try assumption; lia.
    + exists added. cbn [List.length skip registry processed skipped] in *.
      repeat split; try assumption; lia.
    + exists (r :: added).
      cbn [List.length accept registry processed skipped] in *.
      rewrite <- app_assoc in Hr. repeat split; try assumption; lia.
Qed.

End LoopAccounting.

(** X19. The loop only ever appends to the registry: after any payload the
    old registry is a prefix of the new one, the processed counter has grown
    by the number of records appended, the skipped counter has not
    decreased, and appended plus skipped entries never exceed the number of
    entries read. *)
Theorem run_loop_appends_and_counts :
  forall (stod : string -> option R) (data : list json)
         (st : IntelligenceEngine.State),
    let st' := IntelligenceEngine.run_loop stod st data in
    exists added,
      IntelligenceEngine.registry st' = IntelligenceEngine.registry st ++ added
      /\ IntelligenceEngine.processed st'
         = (IntelligenceEngine.processed st + Z.of_nat (List.length added))%Z
      /\ (IntelligenceEngine.skipped st <= IntelligenceEngine.skipped st')%Z
      /\ (Z.of_nat (List.length added)
          + (IntelligenceEngine.skipped st' - IntelligenceEngine.skipped st)
          <= Z.of_nat (List.length data))%Z.
Proof. intros stod data st. apply run_loop_accounting_aux. Qed.

Lemma built_name_shape (stod : string -> option R) (nm : string) (item : json)
    (r : ModelEntity) :
  IntelligenceEngine.build stod nm item = Some r ->
  0 < final_score r ->
  final_score r <= 1
  /\ exists s, signals r = [s] /\ 0 < score s <= 1
               /\ (source s = "ZeroEval GPQA"%string /\ weight s = 0.50
                   \/ source s = "Avg Score"%string /\ weight s = 0.40).
Proof.
  intros Hb Hf. destruct (build_facts _ _ _ _ Hb) as (_ & Hs & Hfs).
  rewrite Hs, Hfs in *. clear Hs Hfs.
  unfold attached_signals, positive_unit in *.
  destruct (Utils.TryGetDouble stod item "gpqa_score") as [sc|].
  - destruct (Rltb 0 sc) eqn:E0; destruct (Rleb sc 1) eqn:E1;
      cbn [andb] in *; try lra.
    apply Rleb_true in E1. apply Rltb_true in E0. cbn [score].
    split; [exact E1|].
    eexists. split; [reflexivity|]. cbn [score source weight].
    split; [lra|]. left. split; reflexivity.
  - destruct (Utils.TryGetDouble stod item "average_score") as [sc|];
      [|lra].
    destruct (Rltb 0 sc) eqn:E0; destruct (Rleb sc 1) eqn:E1;
      cbn [andb] in *; try lra.
    apply Rleb_true in E1. apply Rltb_true in E0. cbn [score].
    split; [exact E1|].
    eexists. split; [reflexivity|]. cbn [score source weight].
    split; [lra|]. right. split; reflexivity.
Qed.

(** X20. Every record of the registry after a run has a non-empty name, an
    aggregate in (0,1], exactly one signal, whose score is in (0,1] and
    which is labelled "ZeroEval GPQA" with weight 0.50 or "Avg Score" with
    weight 0.40, and recency tier 3 whatever its staleness. *)
Theorem registry_record_shape :
  forall (stod : string -> option R) (data : json),
    Forall
      (fun r =>
         name r <> ""%string
         /\ 0 < final_score r <= 1
         /\ recency_bonus (metrics r) = 3%Z
         /\ exists s,
              signals r = [s] /\ 0 < score s <= 1
              /\ (source s = "ZeroEval GPQA"%string /\ weight s = 0.50
                  \/ source s = "Avg Score"%string /\ weight s = 0.40))
      (IntelligenceEngine.registry
         (IntelligenceEngine.Run stod IntelligenceEngine.initial data)).
Proof.
  intros stod data.
  assert (Hgen : forall items st,
             Forall (fun r => name r <> ""%string) (IntelligenceEngine.registry st) ->
             Forall (fun r => name r <> ""%string)
               (IntelligenceEngine.registry
                  (IntelligenceEngine.run_loop stod st items))).
  { unfold IntelligenceEngine.run_loop.
    induction items as [|item items IH]; intros st Hst; [exact Hst|].
    cbn [fold_left]. apply IH.
    destruct (process_item_cases stod st item)
      as [E|[E|(nm & r & _ & Hnm & _ & Hb & _ & E)]]; rewrite E;
      try exact Hst.
    cbn [IntelligenceEngine.accept IntelligenceEngine.registry].
    apply Forall_app. split; [exact Hst|]. constructor; [|constructor].
    rewrite (proj1 (build_facts _ _ _ _ Hb)). exact Hnm. }
  assert (Hname : Forall (fun r => name r <> ""%string)
            (IntelligenceEngine.registry
               (IntelligenceEngine.Run stod IntelligenceEngine.initial data))).
  { destruct data; try constructor. apply Hgen. constructor. }
  assert (Hrest : Forall
            (fun r =>
               0 < final_score r <= 1
               /\ recency_bonus (metrics r) = 3%Z
               /\ exists s,
                    signals r = [s] /\ 0 < score s <= 1
                    /\ (source s = "ZeroEval GPQA"%string /\ weight s = 0.50
                        \/ source s = "Avg Score"%string /\ weight s = 0.40))
            (IntelligenceEngine.registry
               (IntelligenceEngine.Run stod IntelligenceEngine.initial data))).
  { apply Run_invariant. intros nm item r Hb Hf.
    destruct (built_name_shape stod nm item r Hb Hf) as (H1 & Hs).
    split; [split; assumption|]. split; [|exact Hs].
    eapply built_recency_tier. exact Hb. }
  rewrite Forall_forall in *. intros r Hin.
  split; [apply Hname; exact Hin | apply Hrest; exact Hin].
Qed.

Lemma exists_in_app (reg l : list ModelEntity) (nm : string) :
  IntelligenceEngine.exists_in reg nm = true ->
  IntelligenceEngine.exists_in (reg ++ l) nm = true.
Proof.
  unfold IntelligenceEngine.exists_in. rewrite existsb_app.
  intros ->. reflexivity.
Qed.

Section SecondPass.
Import IntelligenceEngine.
Variable stod : string -> option R.

Lemma processed_entry_is_inert (st : State) (item : json) :
  inert_from stod (registry (process_item stod st item)) item.
Proof.
  intros st2 l Hreg.
  destruct (process_item_cases stod st2 item)
    as [E2|[E2|(nm2 & r2 & Hf2 & Hn2 & Hex2 & Hb2 & Hp2 & E2)]];
    [rewrite E2; split; reflexivity | rewrite E2; split; reflexivity |].
  exfalso.
  destruct (process_item_cases stod st item)
    as [E|[E|(nm & r & Hf & Hn & Hex & Hb & Hp & E)]].
  - (* the first pass left the state alone: duplicate, or no positive
       aggregate *)
    rewrite E in Hreg.
    assert (Hdup : exists_in (registry st) nm2 = false).
    { destruct (exists_in (registry st) nm2) eqn:Ed; [|reflexivity].
      rewrite Hreg, (exists_in_app _ l _ Ed) in Hex2. discriminate. }
    destruct (named_item_passes_validation item nm2 Hf2) as (Hv & Hg).
    apply String.eqb_neq in Hn2.
    unfold process_item in E. rewrite Hv, Hg, Hn2, Hdup, Hb2 in E.
    apply Rltb_true in Hp2. rewrite Hp2 in E.
    apply (f_equal (fun s => List.length (registry s))) in E.
    cbn [accept registry] in E. rewrite length_app in E. cbn in E. lia.
  - rewrite E in Hreg. cbn [skip registry] in Hreg.
    assert (Hdup : exists_in (registry st) nm2 = false).
    { destruct (exists_in (registry st) nm2) eqn:Ed; [|reflexivity].
      rewrite Hreg, (exists_in_app _ l _ Ed) in Hex2. discriminate. }
    destruct (named_item_passes_validation item nm2 Hf2) as (Hv & Hg).
    apply String.eqb_neq in Hn2.
    unfold process_item in E. rewrite Hv, Hg, Hn2, Hdup, Hb2 in E.
    apply Rltb_true in Hp2. rewrite Hp2 in E.
    apply (f_equal (fun s => List.length (registry s))) in E.
    cbn [accept skip registry] in E. rewrite length_app in E. cbn in E. lia.
  - rewrite E in Hreg. cbn [accept registry] in Hreg.
    rewrite Hf in Hf2. injection Hf2 as <-.
    assert (Hin : exists_in (registry st ++ [r]) nm = true).
    { unfold exists_in. rewrite existsb_app. cbn.
      rewrite (proj1 (build_facts _ _ _ _ Hb)), String.eqb_refl.
      rewrite orb_true_r. reflexivity. }
    rewrite Hreg, (exists_in_app _ l _ Hin) in Hex2. discriminate.
Qed.

Lemma inert_after_loop : forall data st,
  Forall (inert_from stod (registry (run_loop stod st data))) data.
Proof.
  unfold run_loop.
  induction data as [|item data IH]; intros st; [constructor|].
  cbn [fold_left]. constructor; [|apply IH].
  destruct (run_loop_accounting_aux stod data (process_item stod st item))
    as (added & Hr & _).
  unfold run_loop in Hr. rewrite Hr.
  intros st2 l Hreg. rewrite <- app_assoc in Hreg.
  exact (processed_entry_is_inert st item st2 _ Hreg).
Qed.

Lemma inert_entries_change_nothing : forall data reg st2 l,
  Forall (inert_from stod reg) data ->
  registry st2 = reg ++ l ->
  registry (run_loop stod st2 data) = registry st2
  /\ processed (run_loop stod st2 data) = processed st2.
Proof.
  unfold run_loop.
  induction data as [|item data IH]; intros reg st2 l Hall Hreg;
    [split; reflexivity|].
  inversion Hall as [|? ? Hi Hrest]; subst. cbn [fold_left].
  destruct (Hi st2 l Hreg) as (H1 & H2).
  destruct (IH reg (process_item stod st2 item) l Hrest) as (H3 & H4).
  - rewrite H1. exact Hreg.
  - rewrite H3, H4, H1, H2. split; reflexivity.
Qed.

Lemma second_pass_aux (data : list json) (st : State) :
  registry (run_loop stod (run_loop stod st data) data)
  = registry (run_loop stod st data)
  /\ processed (run_loop stod (run_loop stod st data) data)
     = processed (run_loop stod st data).
Proof.
  apply inert_entries_change_nothing
    with (reg := registry (run_loop stod st data)) (l := []).
  - apply inert_after_loop.
  - rewrite app_nil_r. reflexivity.
Qed.

End SecondPass.

(** X21. Ingesting the same payload a second time changes neither the
    registry nor the processed counter: every entry is by then a duplicate,
    or is rejected for the reason it was rejected the first time. *)
Theorem second_pass_adds_nothing :
  forall (stod : string -> option R) (data : list json)
         (st : IntelligenceEngine.State),
    let once := IntelligenceEngine.run_loop stod st data in
    let twice := IntelligenceEngine.run_loop stod once data in
    IntelligenceEngine.registry twice = IntelligenceEngine.registry once
    /\ IntelligenceEngine.processed twice = IntelligenceEngine.processed once.
Proof. intros stod data st. apply second_pass_aux. Qed.

(** X22. The loop body fails with a JSON exception exactly when the
    ["organization"] member is present but not a string, or the
    ["modalities"] member is an array holding a non-string; such an entry,
    when its name is valid and not yet registered, is counted as skipped and
    leaves the registry alone. *)
Theorem build_fails_iff_malformed_member :
  forall (stod : string -> option R) (nm : string) (item : json),
    (IntelligenceEngine.build stod nm item = None
     <-> bad_organization item \/ bad_modalities item)
    /\ forall st,
         Json.find item "name" = Some (JString nm) ->
         nm <> ""%string ->
         IntelligenceEngine.exists_in (IntelligenceEngine.registry st) nm
         = false ->
         bad_organization item \/ bad_modalities item ->
         IntelligenceEngine.process_item stod st item
         = IntelligenceEngine.skip st.
Proof.
  intros stod nm item.
  assert (Hiff : IntelligenceEngine.build stod nm item = None
                 <-> bad_organization item \/ bad_modalities item).
  { unfold IntelligenceEngine.build, Json.value_string, bad_organization.
    destruct (Json.find item "organization") as [v|] eqn:Ho.
    - destruct v; cbn [Json.get_string];
        try (split; [intros _; left; eexists; split; reflexivity
                    | reflexivity]).
      destruct (KnowledgeBase.Enrich stod _ item) as [m'|] eqn:E.
      + split; [discriminate|]. intros [(v & Hv & Hs)|Hbad].
        * injection Hv as <-. discriminate.
        * apply detect_modalities_none_iff
            with (n := Utils.ToLower s) (s := ModSet.empty) in Hbad.
          unfold KnowledgeBase.Enrich in E.
          rewrite detect_modalities_union in E.
          cbn [name] in E.
          replace (Utils.ToLower
                     (name (ComputeAggregates
                              (IntelligenceEngine.add_item_signals stod item
                                 (new_ModelEntity nm s)))))
            with (Utils.ToLower nm) in E
            by (rewrite ComputeAggregates_name, add_item_signals_name;
                reflexivity).
          rewrite (proj2 (detect_modalities_none_iff (Utils.ToLower nm) item
                            ModSet.empty)) in E; [discriminate|].
          apply (proj1 (detect_modalities_none_iff _ _ _) Hbad).
      + split; [|reflexivity]. intros _. right.
        unfold KnowledgeBase.Enrich in E.
        destruct (KnowledgeBase.detect_modalities _ _ _) eqn:D;
          [discriminate|].
        apply (proj1 (detect_modalities_none_iff _ _ _) D).
    - destruct (KnowledgeBase.Enrich stod _ item) as [m'|] eqn:E.
      + split; [discriminate|]. intros [(v & Hv & _)|Hbad]; [discriminate|].
        unfold KnowledgeBase.Enrich in E.
        rewrite (proj2 (detect_modalities_none_iff _ item _) Hbad) in E.
        discriminate.
      + split; [|reflexivity]. intros _. right.
        unfold KnowledgeBase.Enrich in E.
        destruct (KnowledgeBase.detect_modalities _ _ _) eqn:D;
          [discriminate|].
        apply (proj1 (detect_modalities_none_iff _ _ _) D). }
  split; [exact Hiff|].
  intros st Hfind Hnm Hex Hbad.
  destruct (named_item_passes_validation item nm Hfind) as (Hv & Hg).
  apply String.eqb_neq in Hnm.
  unfold IntelligenceEngine.process_item.
  rewrite Hv, Hg, Hnm, Hex, (proj2 Hiff Hbad). reflexivity.
Qed.

(** ** Export and dashboard ordering *)

(** X23. The tie-break comparator of the CSV export is irreflexive and
    asymmetric, but it is not transitive: three records with overall scores
    0.000, 0.004, 0.008 and recency tiers 3, 2, 1 are ranked in a cycle, so
    the comparator is not the strict weak ordering [std::sort] requires. *)
Theorem tie_break_comparator_asymmetric_not_transitive :
  (forall a b sa sb,
      DataExporter.csv_tieBreakerSort a b sa sb = true ->
      DataExporter.csv_tieBreakerSort b a sb sa = false)
  /\ (forall a s, DataExporter.csv_tieBreakerSort a a s s = false)
  /\ (DataExporter.csv_performance_less (ranked 0 3) (ranked 0.004 2) = true
      /\ DataExporter.csv_performance_less (ranked 0.004 2) (ranked 0.008 1)
         = true
      /\ DataExporter.csv_performance_less (ranked 0.008 1) (ranked 0 3)
         = true).
Proof.
  split; [|split].
  - intros a b sa sb. unfold DataExporter.csv_tieBreakerSort,
      Config.Weights.TIE_THRESHOLD, Rleb, Rltb.
    case_abs; case_R; intros H; try discriminate; try reflexivity;
      try (exfalso; lra);
      apply Z.ltb_lt in H; apply Z.ltb_ge; lia.
  - intros a s. unfold DataExporter.csv_tieBreakerSort,
      Config.Weights.TIE_THRESHOLD, Rleb, Rltb.
    case_abs; case_R; try reflexivity; try (exfalso; lra);
      apply Z.ltb_irrefl.
  - unfold DataExporter.csv_performance_less, DataExporter.csv_tieBreakerSort,
      Config.Weights.TIE_THRESHOLD, Rleb, Rltb, ranked.
    cbn [ranks overall metrics recency_bonus set_metrics set_ranks
         set_recency_bonus].
    case_abs; case_R; repeat split; try reflexivity; exfalso; lra.
Qed.

(** X24. The dashboard comparator is antisymmetric in every sort mode and
    for every rank key: swapping the two records negates the result, so a
    pair is never ranked both ways. *)
Theorem dashboard_compare_antisymmetric :
  forall (mode : DashboardView.SortMode) (k : DashboardView.RankKey)
         (a b : ModelEntity),
    DashboardView.compare mode k a b = - DashboardView.compare mode k b a.
Proof.
  intros mode k a b. unfold DashboardView.compare, Std.abs.
  destruct mode; try lra.
  rewrite (Rabs_minus_sym
             (DashboardView.rank_at (ToJSON_ranks b) k)
             (DashboardView.rank_at (ToJSON_ranks a) k)).
  destruct (Rleb _ 0.5); [|lra].
  rewrite <- opp_IZR. f_equal. lia.
Qed.


Lemma emit_rows_closed (limit : Z) (sorted : list ModelEntity) :
  forall rank,
    (rank <= limit)%Z ->
    map snd (DataExporter.emit_rows limit rank sorted)
    = firstn (Z.to_nat (limit - rank + 1)) sorted
    /\ map fst (DataExporter.emit_rows limit rank sorted)
       = map (fun i => (rank + Z.of_nat i)%Z)
             (seq 0 (List.length
                       (firstn (Z.to_nat (limit - rank + 1)) sorted))).
Proof.
  induction sorted as [|m rest IH]; intros rank Hr.
  - cbn. rewrite firstn_nil. split; reflexivity.
  - cbn [DataExporter.emit_rows].
    replace (Z.to_nat (limit - rank + 1)) with (S (Z.to_nat (limit - rank)))
      by lia.
    cbn [firstn List.length seq map fst snd].
    destruct (Z.ltb_spec limit (rank + 1)) as [Hlt|Hge].
    + replace (Z.to_nat (limit - rank)) with 0%nat by lia.
      cbn. rewrite Z.add_0_r. split; reflexivity.
    + destruct (IH (rank + 1)%Z ltac:(lia)) as (H1 & H2).
      replace (limit - (rank + 1) + 1)%Z with (limit - rank)%Z in * by lia.
      rewrite H1, H2, Z.add_0_r. split; [reflexivity|].
      f_equal. rewrite <- seq_shift, map_map.
      apply map_ext. intros i. lia.
Qed.

(** X25. The row loop of the exports writes the first [limit] records of
    the sorted list (all of them when there are fewer) and numbers them
    1, 2, 3, ... without a gap; in particular never more than [limit] rows. *)
Theorem emit_rows_first_limit_numbered :
  forall (limit : Z) (sorted : list ModelEntity),
    (1 <= limit)%Z ->
    let rows := DataExporter.emit_rows limit 1 sorted in
    map snd rows = firstn (Z.to_nat limit) sorted
    /\ map fst rows = map (fun i => Z.of_nat (S i)) (seq 0 (List.length rows))
    /\ (List.length rows <= Z.to_nat limit)%nat.
Proof.
  intros limit sorted Hl rows. subst rows.
  destruct (emit_rows_closed limit sorted 1 Hl) as (H1 & H2).
  replace (limit - 1 + 1)%Z with limit in * by lia.
  assert (Hlen : List.length (DataExporter.emit_rows limit 1 sorted)
                 = List.length (firstn (Z.to_nat limit) sorted))
    by (rewrite <- H1, length_map; reflexivity).
  split; [exact H1|]. split.
  - rewrite H2, Hlen. apply map_ext. intros i. lia.
  - rewrite Hlen, length_firstn. lia.
Qed.

Lemma emit_rows_witness :
  map snd (DataExporter.emit_rows 2 1 [agreeing; disagreeing; free_sample])
  = [agreeing; disagreeing].
Proof.
  apply (proj1 (emit_rows_first_limit_numbered 2
                  [agreeing; disagreeing; free_sample] ltac:(lia))).
Defined.










(** ** Ecosystem aggregator *)

Section Ecosystem.
Import IntelligenceEngine.

Lemma org_find_add (k k' : string) (x : R) (stats : OrgMap) :
  (k' = k ->
   exists s, org_find k (org_add k' x stats) = Some s
             /\ model_count s = (fst (stats_at k stats) + 1)%Z
             /\ avg_score s = snd (stats_at k stats) + x)
  /\ (k' <> k -> org_find k (org_add k' x stats) = org_find k stats).
Proof.
  unfold stats_at. induction stats as [|[k0 v] rest [IH1 IH2]]; split.
  - intros ->. cbn. rewrite String.eqb_refl. eexists.
    split; [reflexivity|]. cbn. split; [lia | lra].
  - intros Hne. cbn. apply String.eqb_neq in Hne. rewrite Hne. reflexivity.
  - intros ->. cbn [org_add org_find].
    destruct (String.eqb_spec k0 k) as [->|Hne].
    + cbn [org_find]. rewrite String.eqb_refl. eexists.
      split; [reflexivity|]. cbn. split; reflexivity.
    + cbn [org_find]. apply String.eqb_neq in Hne. rewrite Hne.
      apply IH1. reflexivity.
  - intros Hne. cbn [org_add org_find].
    destruct (String.eqb_spec k0 k') as [->|Hne0].
    + cbn [org_find]. apply String.eqb_neq in Hne. rewrite Hne. reflexivity.
    + cbn [org_find]. destruct (String.eqb k0 k); [reflexivity|].
      apply IH2. exact Hne.
Qed.

Lemma org_add_total (k : string) (x : R) (stats : OrgMap) :
  total_count (org_add k x stats) = (total_count stats + 1)%Z.
Proof.
  unfold total_count. induction stats as [|[k0 v] rest IH]; cbn; [lia|].
  destruct (String.eqb k0 k); cbn; [lia|].
  unfold total_count in IH. cbn in IH. rewrite IH. lia.
Qed.

Lemma org_add_keys (k k' : string) (x : R) (stats : OrgMap) :
  In k' (map fst (org_add k x stats)) <-> k' = k \/ In k' (map fst stats).
Proof.
  induction stats as [|[k0 v] rest IH]; cbn.
  - split; [intros [<-|[]]; left; reflexivity | intros [->|[]]; left; reflexivity].
  - destruct (String.eqb_spec k0 k) as [->|Hne]; cbn.
    + split; [intros [<-|H]; [left; reflexivity | right; right; exact H]
             | intros [->|[<-|H]]; [left; reflexivity | left; reflexivity
                                   | right; exact H]].
    + rewrite IH. tauto.
Qed.

Lemma org_add_nodup (k : string) (x : R) (stats : OrgMap) :
  NoDup (map fst stats) -> NoDup (map fst (org_add k x stats)).
Proof.
  induction stats as [|[k0 v] rest IH]; cbn; intros Hnd.
  - constructor; [intros [] | constructor].
  - inversion Hnd as [|? ? Hnotin Hrest]; subst.
    destruct (String.eqb_spec k0 k) as [->|Hne]; cbn.
    + constructor; assumption.
    + constructor; [|apply IH; exact Hrest].
      rewrite org_add_keys. intros [->|H]; [congruence | contradiction].
Qed.

Lemma shares_lookup (reg : list ModelEntity) : forall (stats : OrgMap) k,
  fst (stats_at k (ComputeEcosystemShares reg stats))
  = (fst (stats_at k stats) + Z.of_nat (List.length (members k reg)))%Z
  /\ snd (stats_at k (ComputeEcosystemShares reg stats))
     = snd (stats_at k stats) + Rsum (map final_score (members k reg))
  /\ (org_find k (ComputeEcosystemShares reg stats) = None
      <-> org_find k stats = None /\ members k reg = []).
Proof.
  unfold ComputeEcosystemShares.
  induction reg as [|m reg IH]; intros stats k.
  - cbn. repeat split; try lia; try lra; tauto.
  - cbn [fold_left]. destruct (IH (org_add (org_key m) (final_score m) stats) k)
      as (H1 & H2 & H3).
    rewrite H1, H2, H3. clear H1 H2 H3 IH.
    unfold members. cbn [filter]. fold (members k reg).
    destruct (org_find_add k (org_key m) (final_score m) stats) as (Hs & Hd).
    destruct (String.eqb_spec (org_key m) k) as [He|Hne].
    + destruct (Hs He) as (s & Hf & Hc & Ha).
      assert (Hst : stats_at k (org_add (org_key m) (final_score m) stats)
                    = (model_count s, avg_score s))
        by (unfold stats_at; rewrite Hf; reflexivity).
      rewrite Hst, Hf. cbn [fst snd List.length map]. rewrite Hc, Ha.
      change (Rsum (final_score m :: map final_score (members k reg)))
        with (final_score m + Rsum (map final_score (members k reg))).
      split; [lia|]. split; [lra|].
      split; [intros [Hn _]; discriminate | intros [_ Hn]; discriminate].
    + specialize (Hd Hne).
      assert (Hst : stats_at k (org_add (org_key m) (final_score m) stats)
                    = stats_at k stats)
        by (unfold stats_at; rewrite Hd; reflexivity).
      rewrite Hst, Hd. split; [reflexivity|]. split; [reflexivity|]. tauto.
Qed.

Lemma unit_scores_sum (l : list ModelEntity) :
  Forall (fun m => 0 < final_score m <= 1) l ->
  0 <= Rsum (map final_score l) <= INR (List.length l)
  /\ (l <> [] -> 0 < Rsum (map final_score l)).
Proof.
  induction 1 as [|m l Hm _ [IH _]].
  - cbn. split; [lra | congruence].
  - change (List.length (m :: l)) with (S (List.length l)). rewrite S_INR.
    cbn [map Rsum fold_right]. unfold Rsum in *.
    split; [lra | intros _; lra].
Qed.

Lemma no_member_under_empty_key (reg : list ModelEntity) :
  members "" reg = [].
Proof.
  unfold members. induction reg as [|m reg IH]; [reflexivity|].
  cbn [filter]. unfold org_key at 1.
  destruct (String.eqb_spec (organization m) "") as [He|Hne].
  - cbn. exact IH.
  - apply String.eqb_neq in Hne. rewrite Hne. exact IH.
Qed.

End Ecosystem.

(** X27. After [ComputeEcosystemShares] on an empty map, an organization
    key is present exactly when some record is counted under it; its
    [model_count] is the number of those records and its [avg_score] field
    holds the sum of their aggregates.  Records with an empty organization
    are counted under "Other", and the empty key is never present. *)
Theorem ecosystem_counts_and_sums_per_organization :
  forall (reg : list ModelEntity) (k : string),
    let stats := IntelligenceEngine.ComputeEcosystemShares reg [] in
    (IntelligenceEngine.org_find k stats = None <-> members k reg = [])
    /\ (forall s, IntelligenceEngine.org_find k stats = Some s ->
          IntelligenceEngine.model_count s
          = Z.of_nat (List.length (members k reg))
          /\ IntelligenceEngine.avg_score s
             = Rsum (map final_score (members k reg)))
    /\ IntelligenceEngine.org_find "" stats = None.
Proof.
  intros reg k stats. subst stats.
  destruct (shares_lookup reg [] k) as (H1 & H2 & H3).
  split; [|split].
  - rewrite H3. cbn. tauto.
  - intros s Hs. unfold stats_at in H1, H2. rewrite Hs in H1, H2.
    cbn in H1, H2. split; [lia | lra].
  - apply (proj2 (proj2 (shares_lookup reg [] ""))). split; [reflexivity|].
    apply no_member_under_empty_key.
Qed.

(** X28. The model counts of all organizations add up to the size of the
    registry, and no organization key is listed twice. *)
Theorem ecosystem_counts_add_up :
  forall reg : list ModelEntity,
    let stats := IntelligenceEngine.ComputeEcosystemShares reg [] in
    total_count stats = Z.of_nat (List.length reg)
    /\ NoDup (map fst stats).
Proof.
  intros reg stats. subst stats.
  assert (H : forall stats,
             NoDup (map fst stats) ->
             total_count (IntelligenceEngine.ComputeEcosystemShares reg stats)
             = (total_count stats + Z.of_nat (List.length reg))%Z
             /\ NoDup (map fst
                         (IntelligenceEngine.ComputeEcosystemShares reg stats))).
  { unfold IntelligenceEngine.ComputeEcosystemShares.
    induction reg as [|m reg IH]; intros stats Hnd.
    - cbn [fold_left List.length]. split; [lia | exact Hnd].
    - cbn [fold_left].
      destruct (IH (IntelligenceEngine.org_add (IntelligenceEngine.org_key m)
                      (final_score m) stats)
                  (org_add_nodup _ _ _ Hnd)) as (H1 & H2).
      rewrite H1, org_add_total. split; [cbn [List.length]; lia | exact H2]. }
  destruct (H [] ltac:(constructor)) as (H1 & H2).
  split; [rewrite H1; cbn; lia | exact H2].
Qed.

(** X29. When every record has an aggregate in (0,1], as the registry of a
    run does, an organization with n records gets the ecosystem score
    0.4*n + 3*mean, where mean is the arithmetic mean of its aggregates; the
    score is above 0.4*n and at most 0.4*n + 3, and n is at least 1. *)
Theorem ecosystem_score_bounds :
  forall (reg : list ModelEntity) (k : string) (s : IntelligenceEngine.OrgStats),
    Forall (fun m => 0 < final_score m <= 1) reg ->
    IntelligenceEngine.org_find k
      (IntelligenceEngine.ComputeEcosystemShares reg []) = Some s ->
    let n := IZR (IntelligenceEngine.model_count s) in
    1 <= n
    /\ IntelligenceEngine.ecosystem_score s
       = 0.4 * n + 3 * (Rsum (map final_score (members k reg)) / n)
    /\ 0.4 * n < IntelligenceEngine.ecosystem_score s <= 0.4 * n + 3.
Proof.
  intros reg k s Hreg Hs n. subst n.
  destruct (shares_lookup reg [] k) as (H1 & H2 & H3).
  unfold stats_at in H1, H2. rewrite Hs in H1, H2. cbn in H1, H2.
  assert (Hne : members k reg <> []).
  { intros He. assert (Hn : IntelligenceEngine.org_find k
                              (IntelligenceEngine.ComputeEcosystemShares reg [])
                            = None) by (apply H3; split; [reflexivity | exact He]).
    congruence. }
  assert (Hmem : Forall (fun m => 0 < final_score m <= 1) (members k reg)).
  { rewrite Forall_forall in *. intros m Hin. apply Hreg.
    unfold members in Hin. apply filter_In in Hin. tauto. }
  destruct (unit_scores_sum _ Hmem) as ((_ & Hub) & Hpos). specialize (Hpos Hne).
  assert (Hcount : IZR (IntelligenceEngine.model_count s)
                   = INR (List.length (members k reg)))
    by (rewrite H1, INR_IZR_INZ; f_equal).
  assert (Hn1 : 1 <= INR (List.length (members k reg))).
  { destruct (members k reg) as [|m l]; [congruence|].
    change (List.length (m :: l)) with (S (List.length l)). rewrite S_INR.
    pose proof (pos_INR (List.length l)). lra. }
  assert (Hz : (0 <? IntelligenceEngine.model_count s)%Z = true).
  { apply Z.ltb_lt. rewrite H1. destruct (members k reg); [congruence|].
    cbn [List.length]. lia. }
  unfold IntelligenceEngine.ecosystem_score. rewrite Hz, Hcount, H2.
  set (n := INR (List.length (members k reg))) in *.
  set (S := Rsum (map final_score (members k reg))) in *.
  assert (Hmean : 0 < S / n <= 1).
  { split; [apply Rdiv_lt_0_compat; lra|].
    apply Rmult_le_reg_r with (r := n); [lra|].
    unfold Rdiv. rewrite Rmult_assoc, Rinv_l by lra. lra. }
  replace (0 + S) with S by lra.
  split; [exact Hn1|]. split; lra.
Qed.

Lemma ecosystem_score_witness :
  exists s,
    IntelligenceEngine.org_find "lab"
      (IntelligenceEngine.ComputeEcosystemShares sample_registry []) = Some s
    /\ 1 <= IZR (IntelligenceEngine.model_count s)
    /\ IntelligenceEngine.ecosystem_score s
       <= 0.4 * IZR (IntelligenceEngine.model_count s) + 3.
Proof.
  eexists. split; [reflexivity|].
  destruct (ecosystem_score_bounds sample_registry "lab" _
              ltac:(repeat constructor; cbn; lra) eq_refl) as (H1 & _ & _ & H3).
  split; [exact H1 | exact H3].
Defined.

(** ** Tie-break inside the registry *)

Lemma run_item_a :
  exists r,
    IntelligenceEngine.registry
      (IntelligenceEngine.Run no_stod IntelligenceEngine.initial
         (JArray [item_a])) = [r].
Proof.
  assert (Hb : exists r, IntelligenceEngine.build no_stod "a" item_a = Some r
                         /\ 0 < final_score r).
  { eexists. split; [eval_build; reflexivity|]. cbn [final_score]. lra. }
  destruct Hb as (r & Hb & Hf). exists r.
  cbn [IntelligenceEngine.Run IntelligenceEngine.run_loop fold_left].
  unfold IntelligenceEngine.process_item.
  change (negb (Json.contains item_a "name")
          || Json.is_null (Json.at_key item_a "name")
          || negb (Json.is_string (Json.at_key item_a "name"))) with false.
  change (Json.get_string (Json.at_key item_a "name")) with (Some "a"%string).
  cbn [String.eqb Ascii.eqb Bool.eqb IntelligenceEngine.exists_in existsb
       IntelligenceEngine.registry IntelligenceEngine.initial].
  rewrite Hb. apply Rltb_true in Hf. rewrite Hf. reflexivity.
Qed.

Lemma process_item_accepts (stod : string -> option R)
    (st : IntelligenceEngine.State) (item : json) (nm : string)
    (r : ModelEntity) :
  Json.find item "name" = Some (JString nm) ->
  nm <> ""%string ->
  IntelligenceEngine.exists_in (IntelligenceEngine.registry st) nm = false ->
  IntelligenceEngine.build stod nm item = Some r ->
  0 < final_score r ->
  IntelligenceEngine.process_item stod st item
  = IntelligenceEngine.accept st r.
Proof.
  intros Hfind Hnm Hex Hb Hf.
  destruct (named_item_passes_validation item nm Hfind) as (Hv & Hg).
  apply String.eqb_neq in Hnm. apply Rltb_true in Hf.
  unfold IntelligenceEngine.process_item.
  rewrite Hv, Hg, Hnm, Hex, Hb, Hf. reflexivity.
Qed.

Lemma run_items_a_b :
  exists a b,
    IntelligenceEngine.registry
      (IntelligenceEngine.Run no_stod IntelligenceEngine.initial payload_a_b)
    = [a; b]
    /\ overall (ranks a) = 53.5 /\ overall (ranks b) = 53.707.
Proof.
  assert (Ha : exists r, IntelligenceEngine.build no_stod "a" item_a = Some r
                         /\ 0 < final_score r /\ overall (ranks r) = 53.5).
  { eexists. split; [eval_build; reflexivity|].
    cbn [final_score ranks overall]. split; lra. }
  assert (Hb : exists r, IntelligenceEngine.build no_stod "b" item_b = Some r
                         /\ 0 < final_score r /\ overall (ranks r) = 53.707).
  { eexists. split; [eval_build; reflexivity|].
    cbn [final_score ranks overall]. split; lra. }
  destruct Ha as (a & Ha & Hfa & Hoa). destruct Hb as (b & Hb & Hfb & Hob).
  exists a, b. split; [|split; assumption].
  unfold payload_a_b.
  cbn [IntelligenceEngine.Run IntelligenceEngine.run_loop fold_left].
  rewrite (process_item_accepts no_stod IntelligenceEngine.initial item_a
             "a" a eq_refl ltac:(discriminate) eq_refl Ha Hfa).
  rewrite (process_item_accepts no_stod _ item_b "b" b eq_refl
             ltac:(discriminate)).
  - reflexivity.
  - cbn [IntelligenceEngine.accept IntelligenceEngine.registry
         IntelligenceEngine.initial app IntelligenceEngine.exists_in existsb].
    rewrite (proj1 (build_facts _ _ _ _ Ha)). reflexivity.
  - exact Hb.
  - exact Hfb.
Qed.

(** X30. In the registry of a run the recency tier never decides an order:
    all records carry tier 3, so the CSV comparator ranks a before b exactly
    when a's overall score exceeds b's by more than 0.005, and the dashboard
    comparator returns 0 for any two records whose exported scores are
    within 0.5 of each other. *)
Theorem recency_never_decides_within_registry :
  forall (stod : string -> option R) (data : json) (a b : ModelEntity),
    let reg := IntelligenceEngine.registry
                 (IntelligenceEngine.Run stod IntelligenceEngine.initial data) in
    In a reg -> In b reg ->
    DataExporter.csv_performance_less a b
    = Rltb (overall (ranks b) + 0.005) (overall (ranks a))
    /\ forall k,
         Rabs (DashboardView.rank_at (ToJSON_ranks a) k
               - DashboardView.rank_at (ToJSON_ranks b) k) <= 0.5 ->
         DashboardView.compare DashboardView.default_mode k a b = 0.
Proof.
  intros stod data a b reg Ha Hb. subst reg.
  assert (Htier : Forall (fun r => recency_bonus (metrics r) = 3%Z)
            (IntelligenceEngine.registry
               (IntelligenceEngine.Run stod IntelligenceEngine.initial data))).
  { apply Run_invariant. intros nm item r Hr _.
    eapply built_recency_tier. exact Hr. }
  rewrite Forall_forall in Htier.
  pose proof (Htier a Ha) as Hra. pose proof (Htier b Hb) as Hrb.
  split.
  - unfold DataExporter.csv_performance_less, DataExporter.csv_tieBreakerSort,
      Config.Weights.TIE_THRESHOLD, Rleb, Rltb.
    rewrite Hra, Hrb.
    case_abs; case_R; try reflexivity; exfalso; lra.
  - intros k Hk. rewrite dashboard_band_decides_by_recency by exact Hk.
    rewrite Hra, Hrb. reflexivity.
Qed.

Lemma recency_never_decides_witness :
  exists a b,
    IntelligenceEngine.registry
      (IntelligenceEngine.Run no_stod IntelligenceEngine.initial payload_a_b)
    = [a; b]
    /\ a <> b
    /\ overall (ranks a) = 53.5 /\ overall (ranks b) = 53.707
    /\ DataExporter.csv_performance_less b a = true
    /\ DataExporter.csv_performance_less a b = false
    /\ DashboardView.compare DashboardView.default_mode
         DashboardView.K_overall a b = 0
    /\ DashboardView.compare DashboardView.default_mode
         DashboardView.K_overall b a = 0.
Proof.
  destruct run_items_a_b as (a & b & Hreg & Hoa & Hob).
  exists a, b.
  assert (Hina : In a (IntelligenceEngine.registry
                         (IntelligenceEngine.Run no_stod
                            IntelligenceEngine.initial payload_a_b)))
    by (rewrite Hreg; left; reflexivity).
  assert (Hinb : In b (IntelligenceEngine.registry
                         (IntelligenceEngine.Run no_stod
                            IntelligenceEngine.initial payload_a_b)))
    by (rewrite Hreg; right; left; reflexivity).
  destruct (recency_never_decides_within_registry no_stod payload_a_b a b
              Hina Hinb) as (Hab & Dab).
  destruct (recency_never_decides_within_registry no_stod payload_a_b b a
              Hinb Hina) as (Hba & Dba).
  assert (Hband : forall x y,
             overall (ranks x) = 53.5 -> overall (ranks y) = 53.707 ->
             Rabs (DashboardView.rank_at (ToJSON_ranks x) DashboardView.K_overall
                   - DashboardView.rank_at (ToJSON_ranks y)
                       DashboardView.K_overall) <= 0.5
             /\ Rabs (DashboardView.rank_at (ToJSON_ranks y)
                        DashboardView.K_overall
                      - DashboardView.rank_at (ToJSON_ranks x)
                          DashboardView.K_overall) <= 0.5).
  { intros x y Hx Hy.
    cbn [DashboardView.rank_at ToJSON_ranks overall]. rewrite Hx, Hy.
    rewrite !clamp_id by lra.
    split; unfold Rabs; destruct (Rcase_abs _); lra. }
  destruct (Hband a b Hoa Hob) as (B1 & B2).
  split; [exact Hreg|].
  split; [intros Heq; rewrite Heq, Hob in Hoa; lra|].
  split; [exact Hoa|]. split; [exact Hob|].
  split; [rewrite Hba, Hoa, Hob; apply Rltb_true; lra|].
  split; [rewrite Hab, Hoa, Hob; apply Rltb_false; lra|].
  split; [exact (Dab DashboardView.K_overall B1)
         | exact (Dba DashboardView.K_overall B2)].
Defined.

Lemma build_fails_witness :
  IntelligenceEngine.process_item no_stod IntelligenceEngine.initial
    item_bad_modalities
  = IntelligenceEngine.skip IntelligenceEngine.initial.
Proof.
  apply (proj2 (build_fails_iff_malformed_member no_stod "x"
                  item_bad_modalities));
    [reflexivity | discriminate | reflexivity |].
  right. exists [JString "text"; JNumber 1], (JNumber 1).
  split; [reflexivity|]. split; [right; left; reflexivity | reflexivity].
Defined.
